(** * ogla-frontend: the admin Activities page and its date / URL helpers

    A shallow embedding of

      - [src/utils/dateUtils.js]   (module [DateUtils]),
      - [src/utils/urlUtils.js]    (module [UrlUtils]),
      - [src/admin/pages/Activities.js] (module [Activities]),

    followed by the properties of the specification that are stated about
    them.  JavaScript numbers that hold counts, page numbers and epoch
    milliseconds are integers of [Z]; objects used as dictionaries
    ([process.env], the [filters] state, query parameters) are [gmap]s keyed
    by [string]; objects read through fixed field names are records. *)

From Stdlib Require Import Ascii.
From stdpp Require Import base gmap strings list pretty sorting.

Open Scope Z_scope.

(** ** The pieces of the JavaScript run time the sources rely on *)

Module JS.

(** [String(n)] and a template hole holding an integer. *)
Definition String_ (n : Z) : string := pretty n.

Fixpoint repeat_char (c : ascii) (n : nat) : string :=
  match n with
  | O => EmptyString
  | S n' => String c (repeat_char c n')
  end.

(** [s.padStart(targetLength, c)] for a one-character filler [c]. *)
Definition padStart (targetLength : nat) (c : ascii) (s : string) : string :=
  repeat_char c (targetLength - String.length s) +:+ s.

(** [a || b] where the left operand is either absent (undefined, null) or a
    value that is truthy whenever present (an array, an object). *)
Definition or_else {A} (a : option A) (b : option A) : option A :=
  match a with
  | Some x => Some x
  | None => b
  end.

(** [a || d] with a default that is always there. *)
Definition or_default {A} (a : option A) (d : A) : A :=
  match a with
  | Some x => x
  | None => d
  end.

End JS.

(** ** dateUtils.js *)

Module DateUtils.

(** What a caller hands to the formatters: the documented [string|Date],
    and the two absent values.  A [Date] object carries its time value,
    milliseconds since the epoch, or [None] for the NaN of an Invalid
    Date. *)
Inductive DateInput :=
| InUndefined
| InNull
| InString (s : string)
| InDate (tv : option Z).

(** [!dateInput] *)
Definition not_ (d : DateInput) : bool :=
  match d with
  | InUndefined | InNull => true
  | InString s => bool_decide (s = "")
  | InDate _ => false
  end.

(** Calendar arithmetic of the [Date] object on a time value. *)
Definition msPerDay : Z := 86400000.

Definition Day (t : Z) : Z := t / msPerDay.

(** Proleptic Gregorian date of a day number counted from 1970-01-01:
    (year, month index 0..11, day of month 1..31). *)
Definition civil (day : Z) : Z * Z * Z :=
  let z := day + 719468 in
  let era := z / 146097 in
  let doe := z - era * 146097 in
  let yoe := (doe - doe / 1460 + doe / 36524 - doe / 146096) / 365 in
  let doy := doe - (365 * yoe + yoe / 4 - yoe / 100) in
  let mp := (5 * doy + 2) / 153 in
  let d := doy - (153 * mp + 2) / 5 + 1 in
  let m := if mp <? 10 then mp + 3 else mp - 9 in
  let y := yoe + era * 400 in
  (if m <=? 2 then y + 1 else y, m - 1, d).

Definition YearFromTime (t : Z) : Z := (civil (Day t)).1.1.
Definition MonthFromTime (t : Z) : Z := (civil (Day t)).1.2.
Definition DateFromTime (t : Z) : Z := (civil (Day t)).2.
Definition HourFromTime (t : Z) : Z := (t / 3600000) `mod` 24.
Definition MinFromTime (t : Z) : Z := (t / 60000) `mod` 60.
Definition SecFromTime (t : Z) : Z := (t / 1000) `mod` 60.
Definition msFromTime (t : Z) : Z := t `mod` 1000.

(** [date.toISOString()] of a valid time value (UTC). *)
Definition isoYear (y : Z) : string :=
  if (0 <=? y) && (y <=? 9999) then JS.padStart 4 "0"%char (pretty y)
  else (if y <? 0 then "-" else "+") +:+ JS.padStart 6 "0"%char (pretty (Z.abs y)).

Definition toISOString (t : Z) : string :=
  isoYear (YearFromTime t) +:+ "-" +:+
  JS.padStart 2 "0"%char (pretty (MonthFromTime t + 1)) +:+ "-" +:+
  JS.padStart 2 "0"%char (pretty (DateFromTime t)) +:+ "T" +:+
  JS.padStart 2 "0"%char (pretty (HourFromTime t)) +:+ ":" +:+
  JS.padStart 2 "0"%char (pretty (MinFromTime t)) +:+ ":" +:+
  JS.padStart 2 "0"%char (pretty (SecFromTime t)) +:+ "." +:+
  JS.padStart 3 "0"%char (pretty (msFromTime t)) +:+ "Z".

Section Host.

(** The host decides two things: how a string parses ([Date.parse],
    [None] being NaN) and the offset of local time from UTC, in
    milliseconds, at a given instant. *)
Variable parse : string -> option Z.
Variable localTZA : Z -> Z.

(** [new Date(dateInput).getTime()] *)
Definition newDate (d : DateInput) : option Z :=
  match d with
  | InUndefined => None
  | InNull => Some 0
  | InString s => parse s
  | InDate tv => tv
  end.

Definition LocalTime (t : Z) : Z := t + localTZA t.

Definition getDate (t : Z) : Z := DateFromTime (LocalTime t).
Definition getMonth (t : Z) : Z := MonthFromTime (LocalTime t).
Definition getFullYear (t : Z) : Z := YearFromTime (LocalTime t).
Definition getHours (t : Z) : Z := HourFromTime (LocalTime t).
Definition getMinutes (t : Z) : Z := MinFromTime (LocalTime t).
Definition getSeconds (t : Z) : Z := SecFromTime (LocalTime t).

Definition formatDate (dateInput : DateInput) : string :=
  if not_ dateInput then ""
  else
    match newDate dateInput with
    | None => ""
    | Some date =>
        let day := JS.padStart 2 "0"%char (JS.String_ (getDate date)) in
        let month := JS.padStart 2 "0"%char (JS.String_ (getMonth date + 1)) in
        let year := getFullYear date in
        day +:+ "/" +:+ month +:+ "/" +:+ JS.String_ year
    end.

Definition formatDateTime (dateInput : DateInput) : string :=
  if not_ dateInput then ""
  else
    match newDate dateInput with
    | None => ""
    | Some date =>
        let day := JS.padStart 2 "0"%char (JS.String_ (getDate date)) in
        let month := JS.padStart 2 "0"%char (JS.String_ (getMonth date + 1)) in
        let year := getFullYear date in
        let hours := JS.padStart 2 "0"%char (JS.String_ (getHours date)) in
        let minutes := JS.padStart 2 "0"%char (JS.String_ (getMinutes date)) in
        day +:+ "/" +:+ month +:+ "/" +:+ JS.String_ year +:+ " " +:+
        hours +:+ ":" +:+ minutes
    end.

Definition formatDateTimeFull (dateInput : DateInput) : string :=
  if not_ dateInput then ""
  else
    match newDate dateInput with
    | None => ""
    | Some date =>
        let day := JS.padStart 2 "0"%char (JS.String_ (getDate date)) in
        let month := JS.padStart 2 "0"%char (JS.String_ (getMonth date + 1)) in
        let year := getFullYear date in
        let hours := JS.padStart 2 "0"%char (JS.String_ (getHours date)) in
        let minutes := JS.padStart 2 "0"%char (JS.String_ (getMinutes date)) in
        let seconds := JS.padStart 2 "0"%char (JS.String_ (getSeconds date)) in
        day +:+ "/" +:+ month +:+ "/" +:+ JS.String_ year +:+ " " +:+
        hours +:+ ":" +:+ minutes +:+ ":" +:+ seconds
    end.

(** [`${n} unit${n !== 1 ? 's' : ''} ago`] *)
Definition ago (n : Z) (unit_ : string) : string :=
  JS.String_ n +:+ " " +:+ unit_ +:+
  (if negb (n =? 1) then "s" else "") +:+ " ago".

(** [now] is the time value of the [new Date()] the function takes when
    it runs.  Time values are whole milliseconds, so
    [Math.floor((now - date) / 1000)] is the floor division of [Z]. *)
Definition formatRelativeTime (now : Z) (dateInput : DateInput) : string :=
  if not_ dateInput then ""
  else
    match newDate dateInput with
    | None => ""
    | Some date =>
        let diffInSeconds := (now - date) / 1000 in
        if diffInSeconds <? 60 then "Just now"
        else if diffInSeconds <? 3600 then
          let minutes := diffInSeconds / 60 in ago minutes "minute"
        else if diffInSeconds <? 86400 then
          let hours := diffInSeconds / 3600 in ago hours "hour"
        else if diffInSeconds <? 2592000 then
          let days := diffInSeconds / 86400 in ago days "day"
        else if diffInSeconds <? 31536000 then
          let months := diffInSeconds / 2592000 in ago months "month"
        else
          let years := diffInSeconds / 31536000 in ago years "year"
    end.

Definition formatISO (dateInput : DateInput) : string :=
  if not_ dateInput then ""
  else
    match newDate dateInput with
    | None => ""
    | Some date => toISOString date
    end.

End Host.

End DateUtils.

(** ** urlUtils.js *)

Module UrlUtils.

(** [process.env]: the variables that are set, each to a string. *)
Definition getBaseUrl (env : gmap string string) : string :=
  if bool_decide (env !! "NODE_ENV" = Some "development")
  then "http://localhost:3000"
  else
    match env !! "REACT_APP_BASE_URL" with
    | Some url => if bool_decide (url = "") then "https://oglasheabutter.com" else url
    | None => "https://oglasheabutter.com"
    end.

End UrlUtils.


(** ** admin/pages/Activities.js *)

Module Activities.

(** *** Data *)

Record Activity := {
  id_ : Z;
  action : string;
  entityType : string;
  entityId : option string;
  details : option string;
  user : string;
  createdAt : string;
  ipAddress : option string
}.

Record Pagination := {
  page : Z;
  limit : Z;
  total : Z;
  pages : Z
}.

Record DailyStat := { date : string; count : Z }.
Record ActivityStat := { stat_entityType : string; stat_count : Z }.

(** The stats object starts as [{}]: every field may be missing. *)
Record Stats := {
  dailyStats : option (list DailyStat);
  topUsers : option (list string);
  activityStats : option (list ActivityStat)
}.

Record AgeRange := { range_label : string; range_count : Z }.

Record LogPurgeStatus := {
  status_total : Z;
  ageRanges : list AgeRange;
  oldestRecord : option string;
  newestRecord : option string
}.

(** A filter holds the number it starts with ([days: 30]) or the string a
    [<select>] hands over ([e.target.value]). *)
Inductive FilterValue :=
| Num (n : Z)
| Str (s : string).

(** String conversion of a property read, as in a template hole or in
    [URLSearchParams]; a missing property reads as [undefined]. *)
Definition toString (v : option FilterValue) : string :=
  match v with
  | None => "undefined"
  | Some (Num n) => JS.String_ n
  | Some (Str s) => s
  end.

(** The component state, one field per [useState]. *)
Record State := {
  activities : list Activity;
  stats : Stats;
  loading : bool;
  filters : gmap string FilterValue;
  pagination : Pagination;
  logPurgeStatus : option LogPurgeStatus;
  purging : bool
}.

Definition initialFilters : gmap string FilterValue :=
  {[ "entityType" := Str ""; "action" := Str ""; "userId" := Str "";
     "days" := Num 30 ]}.

Definition defaultPagination : Pagination :=
  {| page := 1; limit := 50; total := 0; pages := 0 |}.

Definition initialState : State :=
  {| activities := [];
     stats := {| dailyStats := None; topUsers := None; activityStats := None |};
     loading := true;
     filters := initialFilters;
     pagination := defaultPagination;
     logPurgeStatus := None;
     purging := false |}.

(** [{ ...prev, page: v }] and [{ ...prev, limit: v }] *)
Definition with_page (v : Z) (prev : Pagination) : Pagination :=
  {| page := v; limit := limit prev; total := total prev; pages := pages prev |}.

Definition with_limit (v : Z) (prev : Pagination) : Pagination :=
  {| page := page prev; limit := v; total := total prev; pages := pages prev |}.

(** *** What the server answers *)

Inductive Error :=
| TypeError (msg : string)
| RequestError (msg : string).

(** The outcome of an awaited request; [Resolved d] carries
    [response.data]. *)
Inductive ApiResult (D : Type) :=
| Resolved (data : D)
| Rejected (error : Error).
Arguments Resolved {D} data.
Arguments Rejected {D} error.

(** An object read for [activities] and [pagination]; [None] is a field
    that is missing, undefined or null (or any other falsy value: the
    source tests the fields with [||]). *)
Record Envelope := {
  env_activities : option (list Activity);
  env_pagination : option Pagination
}.

(** The body of [GET /activities]: its [data] field ([None] when missing
    or null, where [?.] stops) next to its own [activities] and
    [pagination].  The body as a whole may be null: the handlers receive an
    [option ActivitiesBody]. *)
Record ActivitiesBody := {
  body_data : option Envelope;
  body_flat : Envelope
}.

Record LogPurgeStatusBody := { status_data : option LogPurgeStatus }.

Record PurgeBody := {
  success : bool;
  deletedCount : option Z;
  message : option string
}.

(** *** Effects *)

Inductive Request :=
| Get (path : string) (params : gmap string string)
| GetBlob (path : string) (params : gmap string string)
| Post (path : string) (daysOld : Z).

Definition request_path (r : Request) : string :=
  match r with
  | Get p _ | GetBlob p _ | Post p _ => p
  end.

Inductive Effect :=
| Api (r : Request)
| ConsoleError (msg : string) (error : Error)
| WindowConfirm (msg : string)
| Alert (msg : string)
| CreateObjectURL
| CreateElement (tag : string)
| SetHref
| SetAttribute (name value : string)
| AppendChild
| Click
| Remove.

(** A piece of handler code: it runs on the current state, returns or
    throws, and leaves the state it has set and the effects it has had. *)
Definition Act (A : Type) : Type :=
  State -> (Error + A) * State * list Effect.

#[global] Instance Act_ret : MRet Act := fun A a s => (inr a, s, []).

#[global] Instance Act_bind : MBind Act := fun A B k m s =>
  match m s with
  | (inl e, s1, t1) => (inl e, s1, t1)
  | (inr a, s1, t1) =>
      match k a s1 with
      | (r, s2, t2) => (r, s2, t1 ++ t2)
      end
  end.

Definition throw {A} (e : Error) : Act A := fun s => (inl e, s, []).

Definition emit (e : Effect) : Act unit := fun s => (inr tt, s, [e]).

Definition modify (f : State -> State) : Act unit := fun s => (inr tt, f s, []).

(** [try { body } catch (error) { handler } finally { fin }] *)
Definition try_catch_finally {A} (body : Act A) (handler : Error -> Act A)
    (fin : Act unit) : Act A := fun s =>
  let '(r1, s1, t1) :=
    match body s with
    | (inr a, s1, t1) => (inr a, s1, t1)
    | (inl e, s1, t1) =>
        match handler e s1 with
        | (r, s2, t2) => (r, s2, t1 ++ t2)
        end
    end in
  match fin s1 with
  | (inr _, s2, t2) => (r1, s2, t1 ++ t2)
  | (inl e, s2, t2) => (inl e, s2, t1 ++ t2)
  end.

Definition try_catch {A} (body : Act A) (handler : Error -> Act A) : Act A :=
  try_catch_finally body handler (mret tt).

(** [await] of a request that has settled. *)
Definition await {D} (r : ApiResult D) : Act D :=
  match r with
  | Resolved d => mret d
  | Rejected e => throw e
  end.

(** Reading a property of [response.data]: a TypeError when the body is
    null or undefined. *)
Definition deref {B} (body : option B) : Act B :=
  match body with
  | Some b => mret b
  | None => throw (TypeError "Cannot read properties of null")
  end.

(** The setters of [useState], taking the updater function. *)
Definition setActivities (f : list Activity -> list Activity) : Act unit :=
  modify (fun s =>
    {| activities := f (activities s); stats := stats s; loading := loading s;
       filters := filters s; pagination := pagination s;
       logPurgeStatus := logPurgeStatus s; purging := purging s |}).

Definition setStats (f : Stats -> Stats) : Act unit :=
  modify (fun s =>
    {| activities := activities s; stats := f (stats s); loading := loading s;
       filters := filters s; pagination := pagination s;
       logPurgeStatus := logPurgeStatus s; purging := purging s |}).

Definition setLoading (f : bool -> bool) : Act unit :=
  modify (fun s =>
    {| activities := activities s; stats := stats s; loading := f (loading s);
       filters := filters s; pagination := pagination s;
       logPurgeStatus := logPurgeStatus s; purging := purging s |}).

Definition setFilters
    (f : gmap string FilterValue -> gmap string FilterValue) : Act unit :=
  modify (fun s =>
    {| activities := activities s; stats := stats s; loading := loading s;
       filters := f (filters s); pagination := pagination s;
       logPurgeStatus := logPurgeStatus s; purging := purging s |}).

Definition setPagination (f : Pagination -> Pagination) : Act unit :=
  modify (fun s =>
    {| activities := activities s; stats := stats s; loading := loading s;
       filters := filters s; pagination := f (pagination s);
       logPurgeStatus := logPurgeStatus s; purging := purging s |}).

Definition setLogPurgeStatus
    (f : option LogPurgeStatus -> option LogPurgeStatus) : Act unit :=
  modify (fun s =>
    {| activities := activities s; stats := stats s; loading := loading s;
       filters := filters s; pagination := pagination s;
       logPurgeStatus := f (logPurgeStatus s); purging := purging s |}).

Definition setPurging (f : bool -> bool) : Act unit :=
  modify (fun s =>
    {| activities := activities s; stats := stats s; loading := loading s;
       filters := filters s; pagination := pagination s;
       logPurgeStatus := logPurgeStatus s; purging := f (purging s) |}).

(** A setter called with a value instead of an updater. *)
Definition to {A} (v : A) : A -> A := fun _ => v.

(** *** The component

    The handlers are closures of one render: what they read of the state
    ([filters], [pagination], [purging], ...) is the value that render
    saw, [rendered]; what they set goes to the current state, through the
    setters.  An [async] handler is given in two parts: [_request] runs
    up to the [await] and issues the request, [_response] runs when the
    request has settled.  No statement before an [await] can throw, so
    the [try] of the source is written around the second part. *)

Section Component.

Variable rendered : State.

Definition fetchActivities_request : Act unit :=
  setLoading (to true);;
  let params : gmap string string :=
    ((fun v => toString (Some v)) <$> filters rendered) ∪
    {[ "page" := JS.String_ (page (pagination rendered));
       "limit" := JS.String_ (limit (pagination rendered)) ]} in
  emit (Api (Get "/activities" params)).

Definition fetchActivities_response
    (response : ApiResult (option ActivitiesBody)) : Act unit :=
  try_catch_finally
    (response_data ← await response;
     body ← deref response_data;
     let activitiesData :=
       JS.or_default
         (JS.or_else (body_data body ≫= env_activities)
                     (env_activities (body_flat body))) [] in
     let paginationData :=
       JS.or_default
         (JS.or_else (body_data body ≫= env_pagination)
                     (env_pagination (body_flat body)))
         {| page := 1; limit := 50; total := 0; pages := 0 |} in
     setActivities (to activitiesData);;
     setPagination (to paginationData))
    (fun error => emit (ConsoleError "Error fetching activities:" error))
    (setLoading (to false)).

Definition fetchStats_request : Act unit :=
  emit (Api (Get "/activities/stats"
               {[ "days" := toString (filters rendered !! "days") ]})).

Definition fetchStats_response (response : ApiResult Stats) : Act unit :=
  try_catch
    (response_data ← await response;
     setStats (to response_data))
    (fun error => emit (ConsoleError "Error fetching stats:" error)).

Definition fetchLogPurgeStatus_request : Act unit :=
  emit (Api (Get "/log-purge/status" ∅)).

Definition fetchLogPurgeStatus_response
    (response : ApiResult (option LogPurgeStatusBody)) : Act unit :=
  try_catch
    (response_data ← await response;
     body ← deref response_data;
     setLogPurgeStatus (to (status_data body)))
    (fun error => emit (ConsoleError "Error fetching log purge status:" error)).

(** The body of the [useEffect] that runs on mount and whenever
    [filters] or [pagination.page] change. *)
Definition useEffect_fetch : Act unit :=
  fetchActivities_request;;
  fetchStats_request;;
  fetchLogPurgeStatus_request.

Definition handleFilterChange (key : string) (value : FilterValue) : Act unit :=
  setFilters (fun prev => <[key := value]> prev);;
  setPagination (fun prev => with_page 1 prev).

Definition handleExport_request : Act unit :=
  let params : gmap string string :=
    {[ "days" := toString (filters rendered !! "days") ]} in
  emit (Api (GetBlob "/activities/export/csv" params)).

Definition handleExport_response (response : ApiResult string) : Act unit :=
  try_catch
    (_ ← await response;
     emit CreateObjectURL;;
     emit (CreateElement "a");;
     emit SetHref;;
     emit (SetAttribute "download"
             ("activities-export-" +:+ toString (filters rendered !! "days")
              +:+ "days.csv"));;
     emit AppendChild;;
     emit Click;;
     emit Remove)
    (fun error => emit (ConsoleError "Error exporting activities:" error)).

Definition handleExport (response : ApiResult string) : Act unit :=
  handleExport_request;;
  handleExport_response response.

(** [confirmed] is what the user answers to [window.confirm]; the first
    part returns whether a purge request is now in flight. *)
Definition handleLogPurge_request (daysOld : Z) (confirmed : bool) : Act bool :=
  emit (WindowConfirm
          ("Are you sure you want to delete all activity logs older than "
           +:+ JS.String_ daysOld +:+ " days? This action cannot be undone."));;
  if negb confirmed then mret false
  else
    setPurging (to true);;
    emit (Api (Post "/log-purge/manual" daysOld));;
    mret true.

Definition handleLogPurge_response
    (response : ApiResult (option PurgeBody)) : Act unit :=
  try_catch_finally
    (response_data ← await response;
     body ← deref response_data;
     if success body then
       emit (Alert ("Successfully purged "
                    +:+ from_option JS.String_ "undefined" (deletedCount body)
                    +:+ " old log records."));;
       fetchActivities_request;;
       fetchStats_request;;
       fetchLogPurgeStatus_request
     else
       emit (Alert ("Failed to purge logs: "
                    +:+ default "undefined" (message body))))
    (fun error =>
       emit (ConsoleError "Error purging logs:" error);;
       emit (Alert "Failed to purge logs. Please try again."))
    (setPurging (to false)).

Definition handleLogPurge (daysOld : Z) (confirmed : bool)
    (response : ApiResult (option PurgeBody)) : Act unit :=
  inflight ← handleLogPurge_request daysOld confirmed;
  if inflight : bool then handleLogPurge_response response else mret tt.

(** The handlers written inline in the markup. *)
Definition clearFilters : Act unit :=
  setFilters (to initialFilters);;
  setPagination (fun prev => with_page 1 prev).

Definition changeLimit (value : Z) : Act unit :=
  setPagination (fun prev => with_page 1 (with_limit value prev)).

Definition clickPrevious : Act unit :=
  setPagination (fun prev => with_page (Z.max 1 (page prev - 1)) prev).

Definition clickNext : Act unit :=
  setPagination (fun prev =>
    with_page (Z.min (pages (pagination rendered)) (page prev + 1)) prev).

Definition clickPage (page : Z) : Act unit :=
  setPagination (fun prev => with_page page prev).

(** *** What is rendered *)

Record PurgeButton := {
  purge_daysOld : Z;
  disabled : bool;
  label : string
}.

Definition purgeButtons : list PurgeButton :=
  [ {| purge_daysOld := 30;
       disabled := purging rendered;
       label := if purging rendered then "Purging..." else "Purge Logs (30+ days)" |};
    {| purge_daysOld := 90;
       disabled := purging rendered;
       label := if purging rendered then "Purging..." else "Purge Logs (90+ days)" |} ].

(** One entry of the page-number row; [key] is the page number the
    entry stands at. *)
Inductive PageItem :=
| PageButton (key : Z) (current : bool)
| Ellipsis (key : Z).

(** [Array.from({ length: pagination.pages }, (_, i) => i + 1)] *)
Definition pageNumbers : list Z :=
  (fun i => Z.of_nat i + 1) <$> seq 0 (Z.to_nat (pages (pagination rendered))).

(** The callback of the [map] over the page numbers; [None] is the
    [null] that renders nothing. *)
Definition renderPageNumber (page_ : Z) : option PageItem :=
  if (page_ =? 1) || (page_ =? pages (pagination rendered)) ||
     ((page_ >=? page (pagination rendered) - 2) &&
      (page_ <=? page (pagination rendered) + 2))
  then Some (PageButton page_ (page_ =? page (pagination rendered)))
  else if (page_ =? page (pagination rendered) - 3) ||
          (page_ =? page (pagination rendered) + 3)
  then Some (Ellipsis page_)
  else None.

Record PaginationView := {
  limitSelect : Z;
  previousDisabled : bool;
  pageItems : list PageItem;
  nextDisabled : bool
}.

(** [{pagination.pages > 1 && ( ... )}] *)
Definition paginationControl : option PaginationView :=
  if pages (pagination rendered) >? 1 then
    Some {| limitSelect := limit (pagination rendered);
            previousDisabled := page (pagination rendered) =? 1;
            pageItems := omap renderPageNumber pageNumbers;
            nextDisabled :=
              page (pagination rendered) =? pages (pagination rendered) |}
  else None.

(** The stat cards. *)
Definition totalActivities : Z :=
  default 0 ((fun l => foldl (fun sum day => sum + count day) 0 l)
               <$> dailyStats (stats rendered)).

Definition activeUsers : Z :=
  default 0 ((fun l => Z.of_nat (length l)) <$> topUsers (stats rendered)).

Inductive View :=
| Spinner
| Page (cards : Z * Z * option FilterValue)
       (purge : list PurgeButton)
       (rows : list Activity)
       (pager : option PaginationView).

Definition view : View :=
  if loading rendered && bool_decide (length (activities rendered) = 0%nat)
  then Spinner
  else Page (totalActivities, activeUsers, filters rendered !! "days")
            purgeButtons (activities rendered) paginationControl.

End Component.

Definition view_purgeButtons (v : View) : list PurgeButton :=
  match v with
  | Spinner => []
  | Page _ purge _ _ => purge
  end.

(** The requests among the effects of a run, and how many of them went to
    a path. *)
Definition requests (t : list Effect) : list Request :=
  omap (fun e => match e with Api r => Some r | _ => None end) t.

Definition issued (path : string) (t : list Effect) : nat :=
  length (filter (fun r => request_path r = path) (requests t)).

Definition buttonKeys (l : list PageItem) : list Z :=
  omap (fun i => match i with PageButton k _ => Some k | Ellipsis _ => None end) l.

Definition ellipsisKeys (l : list PageItem) : list Z :=
  omap (fun i => match i with PageButton _ _ => None | Ellipsis k => Some k end) l.

(** The page-number row of the pagination control: empty when the control
    is not rendered. *)
Definition renderedPageItems (rendered : State) : list PageItem :=
  match paginationControl rendered with
  | Some control => pageItems control
  | None => []
  end.

(** The condition under which the page-number row shows a button for
    [k], as a proposition. *)
Definition in_window (rendered : State) (k : Z) : Prop :=
  k = 1 \/ k = pages (pagination rendered) \/
  page (pagination rendered) - 2 <= k <= page (pagination rendered) + 2.

(** The two envelope shapes of [GET /activities]. *)
Definition nestedBody (a : list Activity) (p : Pagination) : ActivitiesBody :=
  {| body_data := Some {| env_activities := Some a; env_pagination := Some p |};
     body_flat := {| env_activities := None; env_pagination := None |} |}.

Definition flatBody (a : list Activity) (p : Pagination) : ActivitiesBody :=
  {| body_data := None;
     body_flat := {| env_activities := Some a; env_pagination := Some p |} |}.

(** A body that carries the field in neither place. *)
Definition lacks_activities (b : ActivitiesBody) : bool :=
  bool_decide (body_data b ≫= env_activities = None) &&
  bool_decide (env_activities (body_flat b) = None).

Definition lacks_pagination (b : ActivitiesBody) : bool :=
  bool_decide (body_data b ≫= env_pagination = None) &&
  bool_decide (env_pagination (body_flat b) = None).

(** The icon shown for an entity type, with its class name. *)
Inductive Icon :=
| CubeIcon
| UsersIcon
| DocumentTextIcon
| TagIcon.

Definition getActionIcon (entityType : string) : Icon * string :=
  if bool_decide (entityType = "product") then (CubeIcon, "w-5 h-5 text-blue-500")
  else if bool_decide (entityType = "user") then (UsersIcon, "w-5 h-5 text-green-500")
  else if bool_decide (entityType = "story") then (DocumentTextIcon, "w-5 h-5 text-purple-500")
  else if bool_decide (entityType = "brand") then (TagIcon, "w-5 h-5 text-orange-500")
  else if bool_decide (entityType = "category") then (TagIcon, "w-5 h-5 text-red-500")
  else (DocumentTextIcon, "w-5 h-5 text-gray-500").

Definition getActionColor (action : string) : string :=
  if bool_decide (action = "create") then "text-green-600 bg-green-100"
  else if bool_decide (action = "update") then "text-blue-600 bg-blue-100"
  else if bool_decide (action = "delete") then "text-red-600 bg-red-100"
  else if bool_decide (action = "login") then "text-purple-600 bg-purple-100"
  else "text-gray-600 bg-gray-100".

(** The reducer of the "Entity Types" card: push the type unless the
    array already includes it. *)
Definition pushEntityType (types : list string) (stat : ActivityStat) : list string :=
  if bool_decide (stat_entityType stat ∈ types) then types
  else types ++ [stat_entityType stat].

(** [stats.activityStats?.reduce(..., []).length || 0] *)
Definition entityTypes (rendered : State) : Z :=
  default 0 ((fun l => Z.of_nat (length (foldl pushEntityType [] l)))
               <$> activityStats (stats rendered)).

End Activities.

(** ** Concrete inputs used below *)

Module Samples.

Import DateUtils Activities.

(** A host that parses one ISO string and nothing else, in UTC. *)
Definition parseOne (s : string) : option Z :=
  if bool_decide (s = "2024-03-05T00:00:00") then Some 1709596800000 else None.

Definition utc (t : Z) : Z := 0.

Definition login : Activity :=
  {| id_ := 17; action := "login"; entityType := "user"; entityId := None;
     details := None; user := "admin"; createdAt := "2024-03-05T00:00:00";
     ipAddress := Some "10.0.0.1" |}.

(** A loaded page showing page [p] of [T]. *)
Definition loaded (p T : Z) : State :=
  {| activities := [login];
     stats := {| dailyStats := None; topUsers := None; activityStats := None |};
     loading := false;
     filters := initialFilters;
     pagination := {| page := p; limit := 50; total := 50 * T; pages := T |};
     logPurgeStatus := None;
     purging := false |}.

Definition whilePurging : State :=
  {| activities := [login];
     stats := {| dailyStats := None; topUsers := None; activityStats := None |};
     loading := false;
     filters := initialFilters;
     pagination := {| page := 1; limit := 50; total := 1; pages := 1 |};
     logPurgeStatus := None;
     purging := true |}.

Definition purged : PurgeBody :=
  {| success := true; deletedCount := Some 7; message := None |}.

Definition development : gmap string string :=
  {[ "NODE_ENV" := "development"; "REACT_APP_BASE_URL" := "https://staging.example" ]}.

Definition production : gmap string string :=
  {[ "NODE_ENV" := "production"; "REACT_APP_BASE_URL" := "https://staging.example" ]}.

Definition productionBare : gmap string string :=
  {[ "NODE_ENV" := "production" ]}.

End Samples.

(** ** Auxiliary definitions for the proofs *)

Module Aux.

(** The month index and day of month that [DateUtils.civil] computes,
    as a function of the day within the 400-year era. *)
Definition month_day_of_doe (doe : Z) : Z * Z :=
  let yoe := (doe - doe / 1460 + doe / 36524 - doe / 146096) / 365 in
  let doy := doe - (365 * yoe + yoe / 4 - yoe / 100) in
  let mp := (5 * doy + 2) / 153 in
  let d := doy - (153 * mp + 2) / 5 + 1 in
  let m := if mp <? 10 then mp + 3 else mp - 9 in
  (m - 1, d).

(** The elapsed whole seconds [formatRelativeTime] works with. *)
Definition elapsed (now date : Z) : Z := (now - date) / 1000.

(** The keys of the filters the page itself ever sets. *)
Definition filterKeys : gset string :=
  {[ "entityType"; "action"; "userId"; "days" ]}.

(** The page number lies within the pages there are. *)
Definition page_in_range (s : Activities.State) : Prop :=
  1 <= Activities.page (Activities.pagination s)
    <= Activities.pages (Activities.pagination s).

Definition item_key (i : Activities.PageItem) : Z :=
  match i with
  | Activities.PageButton k _ => k
  | Activities.Ellipsis k => k
  end.

(** The download steps among the effects of a run. *)
Definition is_download_step (e : Activities.Effect) : bool :=
  match e with
  | Activities.CreateObjectURL | Activities.CreateElement _ | Activities.SetHref
  | Activities.SetAttribute _ _ | Activities.AppendChild | Activities.Click
  | Activities.Remove => true
  | _ => false
  end.

Definition alerts (t : list Activities.Effect) : list string :=
  omap (fun e => match e with Activities.Alert m => Some m | _ => None end) t.

(** Whether the answer to a purge request counts as a success for
    [handleLogPurge]: a body that can be read, with a truthy [success]. *)
Definition purge_succeeds
    (response : Activities.ApiResult (option Activities.PurgeBody)) : bool :=
  match response with
  | Activities.Resolved (Some body) => Activities.success body
  | _ => false
  end.

(** The entity types the icon switch knows, and the actions the colour
    switch knows. *)
Definition knownEntityTypes : list string :=
  ["product"; "user"; "story"; "brand"; "category"].

Definition knownActions : list string :=
  ["create"; "update"; "delete"; "login"].

(** A number below 100 written with two decimal digits. *)
Definition two_digits (n : Z) : string :=
  if n <? 10 then "0" +:+ pretty n else pretty n.

(** A handler that returns normally with no effect, keeps the page number
    within the pages there are, and keeps [pages] and [total]. *)
Definition stays_in_range (h : Activities.Act unit) (s : Activities.State) : Prop :=
  exists s' : Activities.State,
    h s = (inr tt, s', []) /\
    page_in_range s' /\
    Activities.pages (Activities.pagination s')
      = Activities.pages (Activities.pagination s) /\
    Activities.total (Activities.pagination s')
      = Activities.total (Activities.pagination s).

End Aux.

(** * Properties *)

(** ** DateFormatter *)

Section DateFormatter.

Import DateUtils.

Variable parse : string -> option Z.
Variable localTZA : Z -> Z.

(** The guards shared by the five functions. *)
Lemma guard_absent (d : DateInput) :
  not_ d = true ->
  formatDate parse localTZA d = "" /\
  formatDateTime parse localTZA d = "" /\
  formatDateTimeFull parse localTZA d = "" /\
  (forall now, formatRelativeTime parse now d = "") /\
  formatISO parse d = "".
Proof.
  intros H.
  unfold formatDate, formatDateTime, formatDateTimeFull, formatRelativeTime,
    formatISO.
  rewrite H. auto.
Qed.

Lemma guard_invalid (d : DateInput) :
  newDate parse d = None ->
  formatDate parse localTZA d = "" /\
  formatDateTime parse localTZA d = "" /\
  formatDateTimeFull parse localTZA d = "" /\
  (forall now, formatRelativeTime parse now d = "") /\
  formatISO parse d = "".
Proof.
  intros H.
  unfold formatDate, formatDateTime, formatDateTimeFull, formatRelativeTime,
    formatISO.
  rewrite H. destruct (not_ d); auto.
Qed.

(** Past both guards, [formatRelativeTime] depends on the whole seconds
    between the input and now only. *)
Lemma relative_time_valid (now : Z) (d : DateInput) (date : Z) :
  not_ d = false ->
  newDate parse d = Some date ->
  formatRelativeTime parse now d =
    formatRelativeTime parse ((now - date) / 1000 * 1000) (InDate (Some 0)).
Proof.
  intros Hd Hp. unfold formatRelativeTime. rewrite Hd, Hp. simpl.
  rewrite Z.sub_0_r, Z.div_mul by lia. reflexivity.
Qed.

Lemma elapsed_seconds (date n r : Z) :
  0 <= r < 1000 -> (date + n * 1000 + r - date) / 1000 = n.
Proof.
  intros Hr. symmetry. apply (Z.div_unique _ _ _ r); [lia | ring].
Qed.

End DateFormatter.

(** The formats on a known instant, 5 March 2024 at midnight UTC, seen
    from UTC and from one hour east of it. *)
Example formatDate_sample :
  DateUtils.formatDate Samples.parseOne Samples.utc
    (DateUtils.InString "2024-03-05T00:00:00") = "05/03/2024".
Proof. reflexivity. Qed.

Example formatDateTime_sample :
  DateUtils.formatDateTime Samples.parseOne (fun _ => 3600000)
    (DateUtils.InDate (Some 1709596800000)) = "05/03/2024 01:00".
Proof. reflexivity. Qed.

Example formatDateTimeFull_sample :
  DateUtils.formatDateTimeFull Samples.parseOne Samples.utc
    (DateUtils.InDate (Some 951865199000)) = "29/02/2000 22:59:59".
Proof. reflexivity. Qed.

Example formatISO_sample :
  DateUtils.formatISO Samples.parseOne (DateUtils.InDate (Some (-1)))
    = "1969-12-31T23:59:59.999Z".
Proof. reflexivity. Qed.

Example formatRelativeTime_sample :
  DateUtils.formatRelativeTime Samples.parseOne (1709596800000 + 3 * 86400000)
    (DateUtils.InString "2024-03-05T00:00:00") = "3 days ago".
Proof. reflexivity. Qed.

(** C3.  Whenever the input is absent (undefined, null, the empty string)
    or does not yield a valid date, each of [formatDate], [formatDateTime],
    [formatDateTimeFull], [formatRelativeTime] and [formatISO] returns the
    empty string, for every host parser, time zone and clock. *)
Theorem C3_absent_or_unparsable_is_empty
    (parse : string -> option Z) (localTZA : Z -> Z) (now : Z)
    (d : DateUtils.DateInput) :
  DateUtils.not_ d = true \/ DateUtils.newDate parse d = None ->
  DateUtils.formatDate parse localTZA d = "" /\
  DateUtils.formatDateTime parse localTZA d = "" /\
  DateUtils.formatDateTimeFull parse localTZA d = "" /\
  DateUtils.formatRelativeTime parse now d = "" /\
  DateUtils.formatISO parse d = "".
Proof.
  intros [H | H].
  - destruct (guard_absent parse localTZA d H) as (? & ? & ? & Hr & ?). auto.
  - destruct (guard_invalid parse localTZA d H) as (? & ? & ? & Hr & ?). auto.
Qed.

Lemma C3_witness :
  (DateUtils.not_ (DateUtils.InString "next tuesday") = true \/
   DateUtils.newDate Samples.parseOne (DateUtils.InString "next tuesday") = None) /\
  DateUtils.formatDate Samples.parseOne Samples.utc (DateUtils.InString "next tuesday") = "" /\
  DateUtils.formatDateTime Samples.parseOne Samples.utc (DateUtils.InString "next tuesday") = "" /\
  DateUtils.formatDateTimeFull Samples.parseOne Samples.utc (DateUtils.InString "next tuesday") = "" /\
  DateUtils.formatRelativeTime Samples.parseOne 1709596800000 (DateUtils.InString "next tuesday") = "" /\
  DateUtils.formatISO Samples.parseOne (DateUtils.InString "next tuesday") = "".
Proof.
  split.
  - right. reflexivity.
  - apply (C3_absent_or_unparsable_is_empty Samples.parseOne Samples.utc
             1709596800000 (DateUtils.InString "next tuesday")).
    right. reflexivity.
Defined.

(** C4.  For a valid input date, [formatRelativeTime] run when 59 whole
    seconds have elapsed (that is, 59000 to 59999 milliseconds) returns
    "Just now"; at 60 seconds "1 minute ago"; at 3600 seconds "1 hour ago";
    at 86400 seconds "1 day ago". *)
Theorem C4_relative_time_boundaries
    (parse : string -> option Z) (d : DateUtils.DateInput) (date r : Z) :
  DateUtils.not_ d = false ->
  DateUtils.newDate parse d = Some date ->
  0 <= r < 1000 ->
  DateUtils.formatRelativeTime parse (date + 59 * 1000 + r) d = "Just now" /\
  DateUtils.formatRelativeTime parse (date + 60 * 1000 + r) d = "1 minute ago" /\
  DateUtils.formatRelativeTime parse (date + 3600 * 1000 + r) d = "1 hour ago" /\
  DateUtils.formatRelativeTime parse (date + 86400 * 1000 + r) d = "1 day ago".
Proof.
  intros Hd Hp Hr.
  rewrite !(relative_time_valid parse _ d date Hd Hp).
  rewrite !elapsed_seconds by exact Hr.
  repeat split; reflexivity.
Qed.

Lemma C4_witness :
  DateUtils.not_ (DateUtils.InString "2024-03-05T00:00:00") = false /\
  DateUtils.newDate Samples.parseOne (DateUtils.InString "2024-03-05T00:00:00")
    = Some 1709596800000 /\
  0 <= 0 < 1000 /\
  DateUtils.formatRelativeTime Samples.parseOne (1709596800000 + 59 * 1000 + 0)
    (DateUtils.InString "2024-03-05T00:00:00") = "Just now" /\
  DateUtils.formatRelativeTime Samples.parseOne (1709596800000 + 60 * 1000 + 0)
    (DateUtils.InString "2024-03-05T00:00:00") = "1 minute ago" /\
  DateUtils.formatRelativeTime Samples.parseOne (1709596800000 + 3600 * 1000 + 0)
    (DateUtils.InString "2024-03-05T00:00:00") = "1 hour ago" /\
  DateUtils.formatRelativeTime Samples.parseOne (1709596800000 + 86400 * 1000 + 0)
    (DateUtils.InString "2024-03-05T00:00:00") = "1 day ago".
Proof.
  split; [reflexivity |]. split; [reflexivity |]. split; [lia |].
  apply (C4_relative_time_boundaries Samples.parseOne
           (DateUtils.InString "2024-03-05T00:00:00") 1709596800000 0).
  - reflexivity.
  - reflexivity.
  - lia.
Defined.

(** ** UrlResolver *)

(** C6.  With [NODE_ENV] equal to "development", [getBaseUrl] returns
    "http://localhost:3000" whatever else the environment holds, the
    override [REACT_APP_BASE_URL] included.  With any other [NODE_ENV] (or
    none) it returns the override when that is set to a non-empty string,
    and "https://oglasheabutter.com" when the override is unset or empty. *)
Theorem C6_getBaseUrl (env : gmap string string) :
  (env !! "NODE_ENV" = Some "development" ->
   UrlUtils.getBaseUrl env = "http://localhost:3000") /\
  (env !! "NODE_ENV" <> Some "development" ->
   forall url, env !! "REACT_APP_BASE_URL" = Some url -> url <> "" ->
   UrlUtils.getBaseUrl env = url) /\
  (env !! "NODE_ENV" <> Some "development" ->
   env !! "REACT_APP_BASE_URL" = None \/ env !! "REACT_APP_BASE_URL" = Some "" ->
   UrlUtils.getBaseUrl env = "https://oglasheabutter.com").
Proof.
  unfold UrlUtils.getBaseUrl. repeat split.
  - intros Hdev. rewrite bool_decide_eq_true_2 by exact Hdev. reflexivity.
  - intros Hdev url Hurl Hne.
    rewrite bool_decide_eq_false_2 by exact Hdev.
    rewrite Hurl. rewrite bool_decide_eq_false_2 by exact Hne. reflexivity.
  - intros Hdev [Hurl | Hurl]; rewrite bool_decide_eq_false_2 by exact Hdev;
      rewrite Hurl; reflexivity.
Qed.

Lemma C6_witness :
  (Samples.development !! "NODE_ENV" = Some "development" /\
   UrlUtils.getBaseUrl Samples.development = "http://localhost:3000") /\
  (Samples.production !! "NODE_ENV" <> Some "development" /\
   Samples.production !! "REACT_APP_BASE_URL" = Some "https://staging.example" /\
   UrlUtils.getBaseUrl Samples.production = "https://staging.example") /\
  (Samples.productionBare !! "NODE_ENV" <> Some "development" /\
   Samples.productionBare !! "REACT_APP_BASE_URL" = None /\
   UrlUtils.getBaseUrl Samples.productionBare = "https://oglasheabutter.com").
Proof.
  split; [| split].
  - split; [reflexivity |].
    apply (proj1 (C6_getBaseUrl Samples.development)). reflexivity.
  - split; [discriminate |]. split; [reflexivity |].
    apply (proj1 (proj2 (C6_getBaseUrl Samples.production)));
      [discriminate | reflexivity | discriminate].
  - split; [discriminate |]. split; [reflexivity |].
    apply (proj2 (proj2 (C6_getBaseUrl Samples.productionBare)));
      [discriminate | left; reflexivity].
Defined.

(** ** ActivityDashboard: the page-number row *)

Section PaginationWindow.

Import Activities.

Variable rendered : State.

#[local] Abbreviation T := (pages (pagination rendered)).
#[local] Abbreviation p := (page (pagination rendered)).

Lemma elem_of_pageNumbers (k : Z) :
  k ∈ pageNumbers rendered <-> 1 <= k <= T.
Proof.
  unfold pageNumbers. rewrite list_elem_of_fmap. split.
  - intros (i & -> & Hi). apply elem_of_seq in Hi. lia.
  - intros Hk. exists (Z.to_nat (k - 1)). split; [lia |].
    apply elem_of_seq. lia.
Qed.

Lemma renderPageNumber_cases (k : Z) :
  (in_window rendered k /\
   renderPageNumber rendered k = Some (PageButton k (k =? p))) \/
  (~ in_window rendered k /\ (k = p - 3 \/ k = p + 3) /\
   renderPageNumber rendered k = Some (Ellipsis k)) \/
  (~ in_window rendered k /\ k <> p - 3 /\ k <> p + 3 /\
   renderPageNumber rendered k = None).
Proof.
  unfold renderPageNumber, in_window. rewrite Z.geb_leb.
  destruct (Z.eqb_spec k 1); [left; split; [lia | reflexivity] |].
  destruct (Z.eqb_spec k T); [left; split; [lia | reflexivity] |].
  destruct (Z.leb_spec (p - 2) k), (Z.leb_spec k (p + 2)); simpl;
    try (left; split; [lia | reflexivity]);
    destruct (Z.eqb_spec k (p - 3)), (Z.eqb_spec k (p + 3)); simpl;
    solve [ right; left; split; [lia | split; [lia | reflexivity]]
          | right; right; split; [lia | split; [lia | split; [lia | reflexivity]]] ].
Qed.

Lemma elem_of_omap_renderPageNumber (x : PageItem) :
  x ∈ omap (renderPageNumber rendered) (pageNumbers rendered) <->
  exists k, 1 <= k <= T /\ renderPageNumber rendered k = Some x.
Proof.
  rewrite list_elem_of_omap. split; intros (k & Hk & Hx); exists k;
    (split; [apply elem_of_pageNumbers; exact Hk | exact Hx]).
Qed.

Lemma elem_of_buttonKeys (l : list PageItem) (k : Z) :
  k ∈ buttonKeys l <-> exists c, PageButton k c ∈ l.
Proof.
  unfold buttonKeys. rewrite list_elem_of_omap. split.
  - intros ([k' c | k'] & Hin & Heq); [| discriminate].
    injection Heq as ->. exists c. exact Hin.
  - intros (c & Hin). exists (PageButton k c). auto.
Qed.

Lemma elem_of_ellipsisKeys (l : list PageItem) (k : Z) :
  k ∈ ellipsisKeys l <-> Ellipsis k ∈ l.
Proof.
  unfold ellipsisKeys. rewrite list_elem_of_omap. split.
  - intros ([k' c | k'] & Hin & Heq); [discriminate |].
    injection Heq as ->. exact Hin.
  - intros Hin. exists (Ellipsis k). auto.
Qed.

(** What the [map] over the page numbers produces, whether or not the
    control around it is shown. *)
Lemma page_number_row (k : Z) :
  let row := omap (renderPageNumber rendered) (pageNumbers rendered) in
  (k ∈ buttonKeys row <-> 1 <= k <= T /\ in_window rendered k) /\
  (k ∈ ellipsisKeys row <->
     1 <= k <= T /\ (k = p - 3 \/ k = p + 3) /\ ~ in_window rendered k) /\
  (forall c, PageButton k c ∈ row -> c = (k =? p)).
Proof.
  cbv zeta. rewrite elem_of_buttonKeys, elem_of_ellipsisKeys.
  split; [| split].
  - split.
    + intros (c & Hin). apply elem_of_omap_renderPageNumber in Hin.
      destruct Hin as (k' & Hk' & Hr).
      destruct (renderPageNumber_cases k') as [(Hw & E) | [(_ & _ & E) | (_ & _ & _ & E)]];
        rewrite E in Hr; [| discriminate | discriminate].
      injection Hr as -> _. auto.
    + intros (Hk & Hw). exists (k =? p).
      apply elem_of_omap_renderPageNumber. exists k. split; [exact Hk |].
      destruct (renderPageNumber_cases k) as [(_ & E) | [(Hn & _) | (Hn & _)]];
        [exact E | contradiction | contradiction].
  - split.
    + intros Hin. apply elem_of_omap_renderPageNumber in Hin.
      destruct Hin as (k' & Hk' & Hr).
      destruct (renderPageNumber_cases k') as [(Hw & E) | [(Hn & He & E) | (_ & _ & _ & E)]];
        rewrite E in Hr; [discriminate | | discriminate].
      injection Hr as ->. auto.
    + intros (Hk & He & Hn).
      apply elem_of_omap_renderPageNumber. exists k. split; [exact Hk |].
      destruct (renderPageNumber_cases k) as [(Hw & _) | [(_ & _ & E) | (_ & H3 & H3' & _)]];
        [contradiction | exact E | lia].
  - intros c Hin. apply elem_of_omap_renderPageNumber in Hin.
    destruct Hin as (k' & Hk' & Hr).
    destruct (renderPageNumber_cases k') as [(Hw & E) | [(_ & _ & E) | (_ & _ & _ & E)]];
      rewrite E in Hr; [| discriminate | discriminate].
    injection Hr as -> <-. reflexivity.
Qed.

Lemma control_shown : 2 <= T ->
  renderedPageItems rendered = omap (renderPageNumber rendered) (pageNumbers rendered).
Proof.
  intros HT. unfold renderedPageItems, paginationControl.
  destruct (Z.gtb_spec T 1); [reflexivity | lia].
Qed.

Lemma control_hidden : T <= 1 ->
  paginationControl rendered = None /\ renderedPageItems rendered = [].
Proof.
  intros HT. unfold renderedPageItems, paginationControl.
  destruct (Z.gtb_spec T 1); [lia | auto].
Qed.

End PaginationWindow.

(** C1 (amended).  With [T = pagination.pages] at least 2 and the current
    page [p] within 1..T, the pagination control shows a page button for
    [k] exactly when [k] is a page number (1..T) and [k = 1], [k = T] or
    [p - 2 <= k <= p + 2]; it shows an ellipsis at [k] exactly when [k] is a
    page number, [k = p - 3] or [k = p + 3], and [k] gets no button; every
    other [k] gets nothing.  With [T <= 1] the control is not rendered, so
    no button or ellipsis is shown at all. *)
Theorem C1_pagination_window (rendered : Activities.State) (k : Z) :
  (2 <= Activities.pages (Activities.pagination rendered) ->
   1 <= Activities.page (Activities.pagination rendered)
     <= Activities.pages (Activities.pagination rendered) ->
   (k ∈ Activities.buttonKeys (Activities.renderedPageItems rendered) <->
      1 <= k <= Activities.pages (Activities.pagination rendered) /\
      (k = 1 \/ k = Activities.pages (Activities.pagination rendered) \/
       Activities.page (Activities.pagination rendered) - 2 <= k
         <= Activities.page (Activities.pagination rendered) + 2)) /\
   (k ∈ Activities.ellipsisKeys (Activities.renderedPageItems rendered) <->
      1 <= k <= Activities.pages (Activities.pagination rendered) /\
      (k = Activities.page (Activities.pagination rendered) - 3 \/
       k = Activities.page (Activities.pagination rendered) + 3) /\
      ~ (k = 1 \/ k = Activities.pages (Activities.pagination rendered) \/
         Activities.page (Activities.pagination rendered) - 2 <= k
           <= Activities.page (Activities.pagination rendered) + 2))) /\
  (Activities.pages (Activities.pagination rendered) <= 1 ->
   Activities.renderedPageItems rendered = []).
Proof.
  split.
  - intros HT _. rewrite control_shown by exact HT.
    destruct (page_number_row rendered k) as (Hb & He & _).
    split; [exact Hb | exact He].
  - intros HT. apply control_hidden. exact HT.
Qed.

Lemma C1_witness :
  2 <= Activities.pages (Activities.pagination (Samples.loaded 5 10)) /\
  1 <= Activities.page (Activities.pagination (Samples.loaded 5 10))
    <= Activities.pages (Activities.pagination (Samples.loaded 5 10)) /\
  (8 ∈ Activities.ellipsisKeys (Activities.renderedPageItems (Samples.loaded 5 10)) <->
     1 <= 8 <= Activities.pages (Activities.pagination (Samples.loaded 5 10)) /\
     (8 = Activities.page (Activities.pagination (Samples.loaded 5 10)) - 3 \/
      8 = Activities.page (Activities.pagination (Samples.loaded 5 10)) + 3) /\
     ~ (8 = 1 \/ 8 = Activities.pages (Activities.pagination (Samples.loaded 5 10)) \/
        Activities.page (Activities.pagination (Samples.loaded 5 10)) - 2 <= 8
          <= Activities.page (Activities.pagination (Samples.loaded 5 10)) + 2)).
Proof.
  split; [simpl; lia |]. split; [simpl; lia |].
  apply (proj1 (C1_pagination_window (Samples.loaded 5 10) 8)); simpl; lia.
Defined.

(** With one page in total, page 1 satisfies the window predicate of C1 as
    stated, yet no button is shown: the control is gated on
    [pagination.pages > 1]. *)
Lemma C1_counterexample :
  1 <= Activities.pages (Activities.pagination (Samples.loaded 1 1)) /\
  1 <= Activities.page (Activities.pagination (Samples.loaded 1 1))
    <= Activities.pages (Activities.pagination (Samples.loaded 1 1)) /\
  Activities.paginationControl (Samples.loaded 1 1) = None /\
  ~ (1 ∈ Activities.buttonKeys (Activities.renderedPageItems (Samples.loaded 1 1)) <->
     (1 = 1 \/ 1 = Activities.pages (Activities.pagination (Samples.loaded 1 1)) \/
      Activities.page (Activities.pagination (Samples.loaded 1 1)) - 2 <= 1
        <= Activities.page (Activities.pagination (Samples.loaded 1 1)) + 2)).
Proof.
  split; [simpl; lia |]. split; [simpl; lia |]. split; [reflexivity |].
  intros [_ H].
  assert (Hin : 1 ∈ Activities.buttonKeys
                  (Activities.renderedPageItems (Samples.loaded 1 1)))
    by (apply H; left; reflexivity).
  change (1 ∈ @nil Z) in Hin. apply elem_of_nil in Hin. exact Hin.
Qed.

(** C2 (amended).  On page 5 of 10 the row is: button 1, an ellipsis (at
    2), buttons 3 to 7 with 5 marked current, an ellipsis (at 8), button 10.
    On page 1 of 3 it is the buttons 1, 2, 3 and no ellipsis. *)
Theorem C2_window_examples (a b : Activities.State) :
  Activities.page (Activities.pagination a) = 5 ->
  Activities.pages (Activities.pagination a) = 10 ->
  Activities.page (Activities.pagination b) = 1 ->
  Activities.pages (Activities.pagination b) = 3 ->
  Activities.renderedPageItems a =
    [ Activities.PageButton 1 false; Activities.Ellipsis 2;
      Activities.PageButton 3 false; Activities.PageButton 4 false;
      Activities.PageButton 5 true; Activities.PageButton 6 false;
      Activities.PageButton 7 false; Activities.Ellipsis 8;
      Activities.PageButton 10 false ] /\
  Activities.buttonKeys (Activities.renderedPageItems a) = [1; 3; 4; 5; 6; 7; 10] /\
  Activities.ellipsisKeys (Activities.renderedPageItems a) = [2; 8] /\
  Activities.renderedPageItems b =
    [ Activities.PageButton 1 true; Activities.PageButton 2 false;
      Activities.PageButton 3 false ] /\
  Activities.ellipsisKeys (Activities.renderedPageItems b) = [].
Proof.
  intros Ha Ha' Hb Hb'.
  unfold Activities.renderedPageItems, Activities.paginationControl,
    Activities.pageNumbers, Activities.renderPageNumber.
  rewrite Ha, Ha', Hb, Hb'. repeat split; reflexivity.
Qed.

Lemma C2_witness :
  Activities.page (Activities.pagination (Samples.loaded 5 10)) = 5 /\
  Activities.pages (Activities.pagination (Samples.loaded 5 10)) = 10 /\
  Activities.page (Activities.pagination (Samples.loaded 1 3)) = 1 /\
  Activities.pages (Activities.pagination (Samples.loaded 1 3)) = 3 /\
  Activities.buttonKeys (Activities.renderedPageItems (Samples.loaded 5 10))
    = [1; 3; 4; 5; 6; 7; 10] /\
  Activities.ellipsisKeys (Activities.renderedPageItems (Samples.loaded 5 10))
    = [2; 8].
Proof.
  do 4 (split; [reflexivity |]).
  destruct (C2_window_examples (Samples.loaded 5 10) (Samples.loaded 1 3)
              eq_refl eq_refl eq_refl eq_refl) as (_ & Hb & He & _).
  split; [exact Hb | exact He].
Defined.

(** On page 5 of 10, page 2 is not among the buttons (an ellipsis stands
    there) and there are two ellipses, not one. *)
Lemma C2_counterexample :
  ~ (forall k : Z,
       k ∈ Activities.buttonKeys (Activities.renderedPageItems (Samples.loaded 5 10))
       <-> k ∈ [1; 2; 3; 4; 5; 6; 7; 10]) /\
  ~ (length (Activities.ellipsisKeys
               (Activities.renderedPageItems (Samples.loaded 5 10))) = 1%nat).
Proof.
  split.
  - intros H.
    assert (Hin : 2 ∈ Activities.buttonKeys
                    (Activities.renderedPageItems (Samples.loaded 5 10)))
      by (apply H; apply (bool_decide_unpack _); vm_compute; exact I).
    revert Hin. apply (bool_decide_eq_false_1 _). vm_compute. reflexivity.
  - intros H. vm_compute in H. discriminate H.
Qed.

(** ** ActivityDashboard: handlers *)

(** C5.  [handleFilterChange key value], for any key (so for each of
    entityType, action, userId, days), any new value and any prior state,
    sets [pagination.page] to 1 and leaves [limit], [total] and [pages] as
    they were; the filter itself is stored under the key and nothing else
    of the state changes. *)
Theorem C5_filter_change_resets_page
    (key : string) (value : Activities.FilterValue) (s : Activities.State) :
  exists s' : Activities.State,
    Activities.handleFilterChange key value s = (inr tt, s', []) /\
    Activities.page (Activities.pagination s') = 1 /\
    Activities.limit (Activities.pagination s')
      = Activities.limit (Activities.pagination s) /\
    Activities.total (Activities.pagination s')
      = Activities.total (Activities.pagination s) /\
    Activities.pages (Activities.pagination s')
      = Activities.pages (Activities.pagination s) /\
    Activities.filters s' = <[key := value]> (Activities.filters s) /\
    Activities.activities s' = Activities.activities s /\
    Activities.stats s' = Activities.stats s /\
    Activities.loading s' = Activities.loading s /\
    Activities.logPurgeStatus s' = Activities.logPurgeStatus s /\
    Activities.purging s' = Activities.purging s.
Proof.
  eexists. split; [reflexivity |]. simpl. repeat split.
Qed.

(** C8.  When the export request is rejected, [handleExport] leaves the
    whole state, and so [activities], [stats] and [pagination], as it was:
    the error is logged and nothing is set.  The same holds for the part
    that runs after the [await], whatever the state has become by then. *)
Theorem C8_export_failure_keeps_state
    (rendered s : Activities.State) (error : Activities.Error) :
  (exists (s' : Activities.State) (t : list Activities.Effect),
     Activities.handleExport rendered (Activities.Rejected error) s = (inr tt, s', t) /\
     Activities.activities s' = Activities.activities s /\
     Activities.stats s' = Activities.stats s /\
     Activities.pagination s' = Activities.pagination s /\
     s' = s) /\
  Activities.handleExport_response rendered (Activities.Rejected error) s
    = (inr tt, s,
       [Activities.ConsoleError "Error exporting activities:" error]).
Proof.
  split; [| reflexivity].
  eexists _, _. split; [reflexivity |]. repeat split.
Qed.

Section Purge.

Import Activities.

Variable rendered : State.

(** The second part of [handleLogPurge], outcome by outcome, on whatever
    the state is when the request settles. *)
Lemma purge_succeeded (body : PurgeBody) (s : State) :
  success body = true ->
  exists s' : State,
    handleLogPurge_response rendered (Resolved (Some body)) s =
      (inr tt, s',
       [ Alert ("Successfully purged "
                +:+ from_option JS.String_ "undefined" (deletedCount body)
                +:+ " old log records.");
         Api (Get "/activities"
                (((fun v => toString (Some v)) <$> filters rendered) ∪
                 {[ "page" := JS.String_ (page (pagination rendered));
                    "limit" := JS.String_ (limit (pagination rendered)) ]}));
         Api (Get "/activities/stats"
                {[ "days" := toString (filters rendered !! "days") ]});
         Api (Get "/log-purge/status" ∅) ]) /\
    purging s' = false /\ loading s' = true.
Proof.
  destruct body as [ok n msg]. simpl. intros ->.
  eexists. split; [reflexivity |]. split; reflexivity.
Qed.

Lemma purge_refused (body : PurgeBody) (s : State) :
  success body = false ->
  exists s' : State,
    handleLogPurge_response rendered (Resolved (Some body)) s =
      (inr tt, s',
       [ Alert ("Failed to purge logs: " +:+ default "undefined" (message body)) ]) /\
    purging s' = false.
Proof.
  destruct body as [ok n msg]. simpl. intros ->.
  eexists. split; reflexivity.
Qed.

Lemma purge_failed (response : ApiResult (option PurgeBody)) (s : State) :
  response = Resolved None \/ (exists error, response = Rejected error) ->
  exists (s' : State) (error : Error),
    handleLogPurge_response rendered response s =
      (inr tt, s',
       [ ConsoleError "Error purging logs:" error;
         Alert "Failed to purge logs. Please try again." ]) /\
    purging s' = false.
Proof.
  intros [-> | (error & ->)]; eexists _, _; split; reflexivity.
Qed.

Lemma purge_settles (response : ApiResult (option PurgeBody)) (s : State) :
  exists (s' : State) (t : list Effect),
    handleLogPurge_response rendered response s = (inr tt, s', t) /\
    purging s' = false.
Proof.
  destruct response as [[body |] | error].
  - destruct (success body) eqn:Hs.
    + destruct (purge_succeeded body s Hs) as (s' & E & Hp & _). eauto.
    + destruct (purge_refused body s Hs) as (s' & E & Hp). eauto.
  - destruct (purge_failed (Resolved None) s) as (s' & e & E & Hp); eauto.
  - destruct (purge_failed (Rejected error) s) as (s' & e & E & Hp); eauto.
Qed.

(** The whole handler once the user has confirmed: the request part, then
    the response part on the state the request part left. *)
Lemma purge_confirmed (daysOld : Z) (response : ApiResult (option PurgeBody))
    (s s' : State) (t : list Effect) :
  handleLogPurge_response rendered response
    (snd (fst (setPurging (to true) s))) = (inr tt, s', t) ->
  handleLogPurge rendered daysOld true response s =
    (inr tt, s',
     WindowConfirm
       ("Are you sure you want to delete all activity logs older than "
        +:+ JS.String_ daysOld +:+ " days? This action cannot be undone.")
     :: Api (Post "/log-purge/manual" daysOld) :: t).
Proof.
  intros E. unfold handleLogPurge, handleLogPurge_request. simpl in *.
  unfold mbind, Act_bind. simpl. rewrite E. reflexivity.
Qed.

End Purge.

(** C9.  In a render whose [purging] flag is true, both purge buttons (30
    and 90 days) are disabled, and so is every purge button of the rendered
    view.  When a confirmed purge request is answered with a truthy
    [success], the handler issues each of the three passive fetches
    (activities, stats, purge status) exactly once, and no request besides
    these and the purge itself. *)
Theorem C9_purge_control
    (shown rendered s : Activities.State) (daysOld : Z)
    (body : Activities.PurgeBody) :
  (Activities.purging shown = true ->
   Activities.purge_daysOld <$> Activities.purgeButtons shown = [30; 90] /\
   (forall b, b ∈ Activities.purgeButtons shown -> Activities.disabled b = true) /\
   (forall b, b ∈ Activities.view_purgeButtons (Activities.view shown) ->
              Activities.disabled b = true)) /\
  (Activities.success body = true ->
   exists (s' : Activities.State) (t : list Activities.Effect),
     Activities.handleLogPurge rendered daysOld true
       (Activities.Resolved (Some body)) s = (inr tt, s', t) /\
     Activities.issued "/activities" t = 1%nat /\
     Activities.issued "/activities/stats" t = 1%nat /\
     Activities.issued "/log-purge/status" t = 1%nat /\
     Activities.request_path <$> Activities.requests t =
       ["/log-purge/manual"; "/activities"; "/activities/stats";
        "/log-purge/status"]).
Proof.
  split.
  - intros Hp.
    assert (Hb : forall b, b ∈ Activities.purgeButtons shown ->
                           Activities.disabled b = true).
    { intros b Hb. unfold Activities.purgeButtons in Hb.
      apply elem_of_cons in Hb as [-> | Hb]; [exact Hp |].
      apply elem_of_cons in Hb as [-> | Hb]; [exact Hp |].
      apply elem_of_nil in Hb. contradiction. }
    split; [reflexivity |]. split; [exact Hb |].
    intros b. unfold Activities.view.
    destruct (Activities.loading shown &&
              bool_decide (length (Activities.activities shown) = 0%nat)); simpl.
    + intros Hin. apply elem_of_nil in Hin. contradiction.
    + apply Hb.
  - intros Hs.
    destruct (purge_succeeded rendered body
                (snd (fst (Activities.setPurging (Activities.to true) s))) Hs)
      as (s' & E & _).
    eexists _, _. split; [apply (purge_confirmed rendered daysOld _ s _ _ E) |].
    repeat split; reflexivity.
Qed.

Lemma C9_witness :
  (Activities.purging Samples.whilePurging = true /\
   forall b, b ∈ Activities.purgeButtons Samples.whilePurging ->
             Activities.disabled b = true) /\
  (Activities.success Samples.purged = true /\
   exists (s' : Activities.State) (t : list Activities.Effect),
     Activities.handleLogPurge (Samples.loaded 2 4) 30 true
       (Activities.Resolved (Some Samples.purged)) (Samples.loaded 2 4)
       = (inr tt, s', t) /\
     Activities.issued "/activities" t = 1%nat /\
     Activities.issued "/activities/stats" t = 1%nat /\
     Activities.issued "/log-purge/status" t = 1%nat).
Proof.
  split.
  - split; [reflexivity |].
    apply (proj1 (C9_purge_control Samples.whilePurging Samples.whilePurging
                    Samples.whilePurging 30 Samples.purged)).
    reflexivity.
  - split; [reflexivity |].
    destruct (proj2 (C9_purge_control Samples.whilePurging (Samples.loaded 2 4)
                       (Samples.loaded 2 4) 30 Samples.purged) eq_refl)
      as (s' & t & E & H1 & H2 & H3 & _).
    exists s', t. auto.
Defined.

(** C10.  Once the user has confirmed, [handleLogPurge] returns normally
    with [purging] false whatever the request came to: a body with
    [success] truthy, a body with [success] falsy, a body that cannot be
    read, or a rejected request.  This holds for the handler run as a
    whole and for the part after the [await] run on any state.  When the
    user declines, the handler returns with the state untouched and no
    request issued. *)
Theorem C10_purging_flag_released
    (rendered s s1 : Activities.State) (daysOld : Z)
    (response : Activities.ApiResult (option Activities.PurgeBody)) :
  (exists (s' : Activities.State) (t : list Activities.Effect),
     Activities.handleLogPurge rendered daysOld true response s = (inr tt, s', t) /\
     Activities.purging s' = false) /\
  (exists (s' : Activities.State) (t : list Activities.Effect),
     Activities.handleLogPurge_response rendered response s1 = (inr tt, s', t) /\
     Activities.purging s' = false) /\
  (exists t : list Activities.Effect,
     Activities.handleLogPurge rendered daysOld false response s = (inr tt, s, t) /\
     Activities.requests t = []).
Proof.
  split; [| split].
  - destruct (purge_settles rendered response
                (snd (fst (Activities.setPurging (Activities.to true) s))))
      as (s' & t & E & Hp).
    eexists _, _. split; [apply (purge_confirmed rendered daysOld _ s _ _ E) |].
    exact Hp.
  - apply purge_settles.
  - eexists. split; reflexivity.
Qed.

(** ** ActivityDashboard: the activity-list fetch *)

Section FetchActivities.

Import Activities.

(** What the response part stores for a body that can be read. *)
Lemma fetched_body (b : ActivitiesBody) (s : State) :
  fetchActivities_response (Resolved (Some b)) s =
    (inr tt,
     {| activities :=
          JS.or_default
            (JS.or_else (body_data b ≫= env_activities)
                        (env_activities (body_flat b))) [];
        stats := stats s;
        loading := false;
        filters := filters s;
        pagination :=
          JS.or_default
            (JS.or_else (body_data b ≫= env_pagination)
                        (env_pagination (body_flat b)))
            defaultPagination;
        logPurgeStatus := logPurgeStatus s;
        purging := purging s |},
     []).
Proof. reflexivity. Qed.

(** A null body, or a rejected request: the error is logged, the loading
    flag is cleared, the rest of the state stays. *)
Lemma fetched_nothing (response : ApiResult (option ActivitiesBody)) (s : State) :
  response = Resolved None \/ (exists error, response = Rejected error) ->
  exists error : Error,
    fetchActivities_response response s =
      (inr tt,
       {| activities := activities s;
          stats := stats s;
          loading := false;
          filters := filters s;
          pagination := pagination s;
          logPurgeStatus := logPurgeStatus s;
          purging := purging s |},
       [ConsoleError "Error fetching activities:" error]).
Proof.
  intros [-> | (error & ->)]; eexists; reflexivity.
Qed.

Lemma lacks_activities_spec (b : ActivitiesBody) :
  lacks_activities b = true ->
  JS.or_else (body_data b ≫= env_activities) (env_activities (body_flat b)) = None.
Proof.
  unfold lacks_activities. intros H.
  apply andb_true_iff in H as [H1 H2].
  apply bool_decide_eq_true in H1, H2. rewrite H1, H2. reflexivity.
Qed.

Lemma lacks_pagination_spec (b : ActivitiesBody) :
  lacks_pagination b = true ->
  JS.or_else (body_data b ≫= env_pagination) (env_pagination (body_flat b)) = None.
Proof.
  unfold lacks_pagination. intros H.
  apply andb_true_iff in H as [H1 H2].
  apply bool_decide_eq_true in H1, H2. rewrite H1, H2. reflexivity.
Qed.

End FetchActivities.

(** C7 (amended).  For a response body that can be read (anything but null
    or undefined), the fetch takes [activities] and [pagination] each from
    [body.data] when it is there, else from the body itself, else the
    fallback: the empty list, and the block [{page: 1, limit: 50, total: 0,
    pages: 0}].  So the nested and the flat envelope of the same list and
    pagination block give the same state; a body with [activities] in
    neither place gives the empty list, and one with [pagination] in
    neither place gives the fallback block.  A null body makes the property
    read throw: the TypeError is logged, once and as the only effect, under
    "Error fetching activities:", [loading] is cleared, and [activities],
    [pagination] and the rest of the state stay as they were. *)
Theorem C7_envelope_normalization
    (s : Activities.State) (a : list Activities.Activity)
    (p : Activities.Pagination) (b : Activities.ActivitiesBody) :
  (exists s' : Activities.State,
     Activities.fetchActivities_response
       (Activities.Resolved (Some (Activities.nestedBody a p))) s = (inr tt, s', []) /\
     Activities.fetchActivities_response
       (Activities.Resolved (Some (Activities.flatBody a p))) s = (inr tt, s', []) /\
     Activities.activities s' = a /\
     Activities.pagination s' = p /\
     Activities.loading s' = false) /\
  (exists s' : Activities.State,
     Activities.fetchActivities_response (Activities.Resolved (Some b)) s
       = (inr tt, s', []) /\
     (Activities.lacks_activities b = true -> Activities.activities s' = []) /\
     (Activities.lacks_pagination b = true ->
      Activities.pagination s' =
        {| Activities.page := 1; Activities.limit := 50;
           Activities.total := 0; Activities.pages := 0 |}) /\
     (forall a', Activities.body_data b ≫= Activities.env_activities = Some a' ->
                 Activities.activities s' = a') /\
     (forall a', Activities.body_data b ≫= Activities.env_activities = None ->
                 Activities.env_activities (Activities.body_flat b) = Some a' ->
                 Activities.activities s' = a') /\
     (forall p', Activities.body_data b ≫= Activities.env_pagination = Some p' ->
                 Activities.pagination s' = p') /\
     (forall p', Activities.body_data b ≫= Activities.env_pagination = None ->
                 Activities.env_pagination (Activities.body_flat b) = Some p' ->
                 Activities.pagination s' = p') /\
     Activities.loading s' = false) /\
  (exists (s' : Activities.State) (msg : string),
     Activities.fetchActivities_response (Activities.Resolved None) s
       = (inr tt, s',
          [Activities.ConsoleError "Error fetching activities:"
             (Activities.TypeError msg)]) /\
     Activities.activities s' = Activities.activities s /\
     Activities.pagination s' = Activities.pagination s /\
     Activities.stats s' = Activities.stats s /\
     Activities.filters s' = Activities.filters s /\
     Activities.logPurgeStatus s' = Activities.logPurgeStatus s /\
     Activities.purging s' = Activities.purging s /\
     Activities.loading s' = false).
Proof.
  split; [| split].
  - eexists. rewrite !fetched_body. simpl.
    split; [reflexivity |]. split; [reflexivity |]. repeat split.
  - eexists. rewrite fetched_body. split; [reflexivity |]. simpl.
    split; [| split; [| split; [| split; [| split; [| split]]]]].
    + intros H. rewrite (lacks_activities_spec b H). reflexivity.
    + intros H. rewrite (lacks_pagination_spec b H). reflexivity.
    + intros a' H. rewrite H. reflexivity.
    + intros a' H H'. rewrite H, H'. reflexivity.
    + intros p' H. rewrite H. reflexivity.
    + intros p' H H'. rewrite H, H'. reflexivity.
    + reflexivity.
  - eexists _, _. split; [reflexivity |]. simpl. repeat split.
Qed.

Lemma C7_witness :
  Activities.lacks_activities
    {| Activities.body_data := None;
       Activities.body_flat :=
         {| Activities.env_activities := None;
            Activities.env_pagination := None |} |} = true /\
  exists s' : Activities.State,
    Activities.fetchActivities_response
      (Activities.Resolved
         (Some {| Activities.body_data := None;
                  Activities.body_flat :=
                    {| Activities.env_activities := None;
                       Activities.env_pagination := None |} |}))
      (Samples.loaded 3 7) = (inr tt, s', []) /\
    Activities.activities s' = [] /\
    Activities.pagination s' = Activities.defaultPagination.
Proof.
  split; [reflexivity |].
  destruct (C7_envelope_normalization (Samples.loaded 3 7) [] Activities.defaultPagination
              {| Activities.body_data := None;
                 Activities.body_flat :=
                   {| Activities.env_activities := None;
                      Activities.env_pagination := None |} |})
    as (_ & (s' & E & Ha & Hp & _) & _).
  exists s'. split; [exact E |]. split; [apply Ha | apply Hp]; reflexivity.
Defined.

(** A response whose body is null has neither envelope shape, yet the
    fetch started on page 3 of 7 with one activity listed does not end
    with an empty list and the fallback block: it keeps both. *)
Lemma C7_counterexample :
  exists (s' : Activities.State) (t : list Activities.Effect),
    Activities.fetchActivities_response (Activities.Resolved None)
      (Samples.loaded 3 7) = (inr tt, s', t) /\
    Activities.activities s' = [Samples.login] /\
    Activities.page (Activities.pagination s') = 3 /\
    ~ (Activities.activities s' = [] /\
       Activities.pagination s' =
         {| Activities.page := 1; Activities.limit := 50;
            Activities.total := 0; Activities.pages := 0 |}).
Proof.
  eexists _, _. split; [reflexivity |]. split; [reflexivity |].
  split; [reflexivity |]. simpl. intros [H _]. discriminate H.
Qed.

(** * Further properties of the code *)

(** ** Strings and calendar fields *)

Section Strings.

Lemma string_length_app (s1 s2 : string) :
  String.length (s1 +:+ s2) = (String.length s1 + String.length s2)%nat.
Proof.
  induction s1 as [| c s1 IH]; simpl; [reflexivity |]. rewrite IH. reflexivity.
Qed.

Lemma string_app_assoc (s1 s2 s3 : string) :
  (s1 +:+ s2) +:+ s3 = s1 +:+ (s2 +:+ s3).
Proof.
  induction s1 as [| c s1 IH]; [reflexivity |].
  change (String c ((s1 +:+ s2) +:+ s3) = String c (s1 +:+ (s2 +:+ s3))).
  rewrite IH. reflexivity.
Qed.

Lemma length_repeat_char (c : ascii) (n : nat) :
  String.length (JS.repeat_char c n) = n.
Proof. induction n as [| n IH]; simpl; [reflexivity |]. rewrite IH. reflexivity. Qed.

Lemma length_padStart (n : nat) (c : ascii) (s : string) :
  String.length (JS.padStart n c s) = Nat.max n (String.length s).
Proof.
  unfold JS.padStart. rewrite string_length_app, length_repeat_char. lia.
Qed.

(** Numbers of at most two digits print in one or two characters. *)
Lemma length_pretty_two_digits (n : Z) :
  0 <= n < 100 -> (1 <= String.length (pretty n) <= 2)%nat.
Proof.
  intros Hn.
  assert (H : Forall (fun n : Z => (1 <= String.length (pretty n) <= 2)%nat)
                (seqZ 0 100))
    by (apply (bool_decide_unpack _); vm_compute; exact I).
  rewrite Forall_forall in H. apply H. apply elem_of_seqZ. lia.
Qed.

Lemma length_pretty_four_digits (n : Z) :
  1000 <= n <= 9999 -> String.length (pretty n) = 4%nat.
Proof.
  intros Hn.
  assert (H : Forall (fun n : Z => String.length (pretty n) = 4%nat)
                (seqZ 1000 9000))
    by (apply (bool_decide_unpack _); vm_compute; exact I).
  rewrite Forall_forall in H. apply H. apply elem_of_seqZ. lia.
Qed.

Lemma length_two (n : Z) :
  0 <= n < 100 -> String.length (JS.padStart 2 "0" (JS.String_ n)) = 2%nat.
Proof.
  intros Hn. rewrite length_padStart. unfold JS.String_.
  pose proof (length_pretty_two_digits n Hn). lia.
Qed.

Lemma padStart_two_digits (n : Z) :
  0 <= n < 100 ->
  JS.padStart 2 "0" (JS.String_ n) = Aux.two_digits n /\
  String.length (Aux.two_digits n) = 2%nat.
Proof.
  intros Hn.
  assert (H : Forall (fun n : Z =>
                        JS.padStart 2 "0" (JS.String_ n) = Aux.two_digits n /\
                        String.length (Aux.two_digits n) = 2%nat)
                (seqZ 0 100))
    by (apply (bool_decide_unpack _); vm_compute; exact I).
  rewrite Forall_forall in H. apply H. apply elem_of_seqZ. lia.
Qed.

Lemma month_day_range (doe : Z) :
  0 <= doe < 146097 ->
  0 <= fst (Aux.month_day_of_doe doe) <= 11 /\
  1 <= snd (Aux.month_day_of_doe doe) <= 31.
Proof.
  intros H. unfold Aux.month_day_of_doe. cbv zeta. simpl fst. simpl snd.
  case Z.ltb_spec; intros Hmp; Z.div_mod_to_equations; lia.
Qed.

Lemma civil_month_day (day : Z) :
  snd (fst (DateUtils.civil day))
    = fst (Aux.month_day_of_doe ((day + 719468) `mod` 146097)) /\
  snd (DateUtils.civil day)
    = snd (Aux.month_day_of_doe ((day + 719468) `mod` 146097)).
Proof.
  unfold DateUtils.civil, Aux.month_day_of_doe. cbv zeta.
  replace (day + 719468 - (day + 719468) `div` 146097 * 146097)
    with ((day + 719468) `mod` 146097)
    by (rewrite Z.mod_eq by lia; ring).
  split; reflexivity.
Qed.

Lemma calendar_fields (t : Z) :
  0 <= DateUtils.MonthFromTime t <= 11 /\
  1 <= DateUtils.DateFromTime t <= 31 /\
  0 <= DateUtils.HourFromTime t <= 23 /\
  0 <= DateUtils.MinFromTime t <= 59 /\
  0 <= DateUtils.SecFromTime t <= 59.
Proof.
  unfold DateUtils.MonthFromTime, DateUtils.DateFromTime.
  destruct (civil_month_day (DateUtils.Day t)) as [-> ->].
  pose proof (month_day_range ((DateUtils.Day t + 719468) `mod` 146097)
                (Z.mod_pos_bound _ 146097 eq_refl)) as R.
  unfold DateUtils.HourFromTime, DateUtils.MinFromTime, DateUtils.SecFromTime.
  pose proof (Z.mod_pos_bound (t `div` 3600000) 24 eq_refl).
  pose proof (Z.mod_pos_bound (t `div` 60000) 60 eq_refl).
  pose proof (Z.mod_pos_bound (t `div` 1000) 60 eq_refl).
  lia.
Qed.

End Strings.

(** ** DateFormatter: the shape of the output *)

Section DateShape.

Import DateUtils.

Variable parse : string -> option Z.
Variable localTZA : Z -> Z.

Lemma local_fields (date : Z) :
  1 <= getDate localTZA date <= 31 /\
  1 <= getMonth localTZA date + 1 <= 12 /\
  0 <= getHours localTZA date <= 23 /\
  0 <= getMinutes localTZA date <= 59 /\
  0 <= getSeconds localTZA date <= 59.
Proof.
  unfold getDate, getMonth, getHours, getMinutes, getSeconds.
  pose proof (calendar_fields (LocalTime localTZA date)). lia.
Qed.

Lemma ago_length (n : Z) (u : string) : (1 <= String.length (ago n u))%nat.
Proof.
  unfold ago. rewrite !string_length_app. simpl. lia.
Qed.

Lemma toISOString_length (t : Z) : (1 <= String.length (toISOString t))%nat.
Proof.
  unfold toISOString. rewrite !string_length_app. simpl. lia.
Qed.

End DateShape.

(** X1.  For a valid input, [formatDate] is the local day of the month
    (1 to 31) written with two digits, "/", the local month (1 to 12)
    written with two digits, "/" and the local year, in this order; with a
    four-digit year the result is exactly ten characters long. *)
Theorem X1_formatDate_shape
    (parse : string -> option Z) (localTZA : Z -> Z)
    (d : DateUtils.DateInput) (date : Z) :
  DateUtils.not_ d = false ->
  DateUtils.newDate parse d = Some date ->
  DateUtils.formatDate parse localTZA d =
    Aux.two_digits (DateUtils.getDate localTZA date) +:+ "/" +:+
    Aux.two_digits (DateUtils.getMonth localTZA date + 1) +:+ "/" +:+
    JS.String_ (DateUtils.getFullYear localTZA date) /\
  1 <= DateUtils.getDate localTZA date <= 31 /\
  1 <= DateUtils.getMonth localTZA date + 1 <= 12 /\
  String.length (Aux.two_digits (DateUtils.getDate localTZA date)) = 2%nat /\
  String.length (Aux.two_digits (DateUtils.getMonth localTZA date + 1)) = 2%nat /\
  (1000 <= DateUtils.getFullYear localTZA date <= 9999 ->
   String.length (DateUtils.formatDate parse localTZA d) = 10%nat).
Proof.
  intros Hd Hp. unfold DateUtils.formatDate. rewrite Hd, Hp. cbv zeta.
  destruct (local_fields localTZA date) as (Hday & Hmonth & _).
  destruct (padStart_two_digits (DateUtils.getDate localTZA date)) as [E1 L1];
    [lia |].
  destruct (padStart_two_digits (DateUtils.getMonth localTZA date + 1)) as [E2 L2];
    [lia |].
  rewrite E1, E2.
  split; [reflexivity |]. split; [exact Hday |]. split; [exact Hmonth |].
  split; [exact L1 |]. split; [exact L2 |].
  intros Hy. rewrite !string_length_app, L1, L2.
  unfold JS.String_. rewrite (length_pretty_four_digits _ Hy). reflexivity.
Qed.

Lemma X1_witness :
  DateUtils.not_ (DateUtils.InString "2024-03-05T00:00:00") = false /\
  DateUtils.newDate Samples.parseOne (DateUtils.InString "2024-03-05T00:00:00")
    = Some 1709596800000 /\
  1000 <= DateUtils.getFullYear Samples.utc 1709596800000 <= 9999 /\
  DateUtils.formatDate Samples.parseOne Samples.utc
    (DateUtils.InString "2024-03-05T00:00:00") =
    Aux.two_digits 5 +:+ "/" +:+ Aux.two_digits 3 +:+ "/" +:+ JS.String_ 2024 /\
  String.length (DateUtils.formatDate Samples.parseOne Samples.utc
                   (DateUtils.InString "2024-03-05T00:00:00")) = 10%nat.
Proof.
  assert (Hy : 1000 <= DateUtils.getFullYear Samples.utc 1709596800000 <= 9999)
    by (vm_compute; split; discriminate).
  split; [reflexivity |]. split; [reflexivity |]. split; [exact Hy |].
  destruct (X1_formatDate_shape Samples.parseOne Samples.utc
              (DateUtils.InString "2024-03-05T00:00:00") 1709596800000
              eq_refl eq_refl) as (E & _ & _ & _ & _ & L).
  split; [exact E | exact (L Hy)].
Defined.

(** X2.  For a valid input, [formatDateTime] is [formatDate] followed by a
    space, the local hours (0 to 23) written with two digits, ":" and the
    local minutes (0 to 59) written with two digits; and
    [formatDateTimeFull] is [formatDateTime] followed by ":" and the local
    seconds (0 to 59) written with two digits.  Written out, the two are
    dd/mm/yyyy hh:mm and dd/mm/yyyy hh:mm:ss of the local date and time. *)
Theorem X2_date_time_extends_date
    (parse : string -> option Z) (localTZA : Z -> Z)
    (d : DateUtils.DateInput) (date : Z) :
  DateUtils.not_ d = false ->
  DateUtils.newDate parse d = Some date ->
  DateUtils.formatDateTime parse localTZA d =
    DateUtils.formatDate parse localTZA d +:+ " " +:+
    Aux.two_digits (DateUtils.getHours localTZA date) +:+ ":" +:+
    Aux.two_digits (DateUtils.getMinutes localTZA date) /\
  DateUtils.formatDateTimeFull parse localTZA d =
    DateUtils.formatDateTime parse localTZA d +:+ ":" +:+
    Aux.two_digits (DateUtils.getSeconds localTZA date) /\
  DateUtils.formatDateTimeFull parse localTZA d =
    Aux.two_digits (DateUtils.getDate localTZA date) +:+ "/" +:+
    Aux.two_digits (DateUtils.getMonth localTZA date + 1) +:+ "/" +:+
    JS.String_ (DateUtils.getFullYear localTZA date) +:+ " " +:+
    Aux.two_digits (DateUtils.getHours localTZA date) +:+ ":" +:+
    Aux.two_digits (DateUtils.getMinutes localTZA date) +:+ ":" +:+
    Aux.two_digits (DateUtils.getSeconds localTZA date) /\
  0 <= DateUtils.getHours localTZA date <= 23 /\
  0 <= DateUtils.getMinutes localTZA date <= 59 /\
  0 <= DateUtils.getSeconds localTZA date <= 59 /\
  String.length (Aux.two_digits (DateUtils.getHours localTZA date)) = 2%nat /\
  String.length (Aux.two_digits (DateUtils.getMinutes localTZA date)) = 2%nat /\
  String.length (Aux.two_digits (DateUtils.getSeconds localTZA date)) = 2%nat.
Proof.
  intros Hd Hp.
  unfold DateUtils.formatDate, DateUtils.formatDateTime, DateUtils.formatDateTimeFull.
  rewrite Hd, Hp. cbv zeta.
  destruct (local_fields localTZA date) as (Hday & Hmonth & Hh & Hm & Hs).
  destruct (padStart_two_digits (DateUtils.getDate localTZA date)) as [E1 _];
    [lia |].
  destruct (padStart_two_digits (DateUtils.getMonth localTZA date + 1)) as [E2 _];
    [lia |].
  destruct (padStart_two_digits (DateUtils.getHours localTZA date)) as [E3 L3];
    [lia |].
  destruct (padStart_two_digits (DateUtils.getMinutes localTZA date)) as [E4 L4];
    [lia |].
  destruct (padStart_two_digits (DateUtils.getSeconds localTZA date)) as [E5 L5];
    [lia |].
  rewrite E1, E2, E3, E4, E5.
  split; [rewrite !string_app_assoc; reflexivity |].
  split; [rewrite !string_app_assoc; reflexivity |].
  split; [reflexivity |].
  auto 10.
Qed.

Lemma X2_witness :
  DateUtils.not_ (DateUtils.InDate (Some 951865199000)) = false /\
  DateUtils.newDate Samples.parseOne (DateUtils.InDate (Some 951865199000))
    = Some 951865199000 /\
  DateUtils.formatDateTimeFull Samples.parseOne Samples.utc
    (DateUtils.InDate (Some 951865199000)) =
    Aux.two_digits 29 +:+ "/" +:+ Aux.two_digits 2 +:+ "/" +:+ JS.String_ 2000
    +:+ " " +:+ Aux.two_digits 22 +:+ ":" +:+ Aux.two_digits 59 +:+ ":" +:+
    Aux.two_digits 59.
Proof.
  split; [reflexivity |]. split; [reflexivity |].
  destruct (X2_date_time_extends_date Samples.parseOne Samples.utc
              (DateUtils.InDate (Some 951865199000)) 951865199000
              eq_refl eq_refl) as (_ & _ & E & _).
  exact E.
Defined.

(** X3.  Each of the five formatters returns the empty string only when
    the input is absent or does not yield a valid date: on a valid input
    every one of them returns a non-empty string. *)
Theorem X3_valid_input_is_never_empty
    (parse : string -> option Z) (localTZA : Z -> Z) (now : Z)
    (d : DateUtils.DateInput) (date : Z) :
  DateUtils.not_ d = false ->
  DateUtils.newDate parse d = Some date ->
  DateUtils.formatDate parse localTZA d <> "" /\
  DateUtils.formatDateTime parse localTZA d <> "" /\
  DateUtils.formatDateTimeFull parse localTZA d <> "" /\
  DateUtils.formatRelativeTime parse now d <> "" /\
  DateUtils.formatISO parse d <> "".
Proof.
  intros Hd Hp.
  assert (Hlen : forall s : string, (1 <= String.length s)%nat -> s <> "")
    by (intros s Hs ->; simpl in Hs; lia).
  unfold DateUtils.formatDate, DateUtils.formatDateTime,
    DateUtils.formatDateTimeFull, DateUtils.formatRelativeTime,
    DateUtils.formatISO.
  rewrite Hd, Hp. cbv zeta.
  split; [apply Hlen; rewrite !string_length_app; simpl; lia |].
  split; [apply Hlen; rewrite !string_length_app; simpl; lia |].
  split; [apply Hlen; rewrite !string_length_app; simpl; lia |].
  split; [| apply Hlen, toISOString_length].
  repeat case Z.ltb_spec; intros; solve [discriminate | apply Hlen, ago_length].
Qed.

Lemma X3_witness :
  DateUtils.not_ (DateUtils.InDate (Some 0)) = false /\
  DateUtils.newDate Samples.parseOne (DateUtils.InDate (Some 0)) = Some 0 /\
  DateUtils.formatDate Samples.parseOne Samples.utc (DateUtils.InDate (Some 0)) <> "" /\
  DateUtils.formatISO Samples.parseOne (DateUtils.InDate (Some 0)) <> "".
Proof.
  split; [reflexivity |]. split; [reflexivity |].
  destruct (X3_valid_input_is_never_empty Samples.parseOne Samples.utc 0
              (DateUtils.InDate (Some 0)) 0 eq_refl eq_refl)
    as (H1 & _ & _ & _ & H5).
  split; [exact H1 | exact H5].
Defined.

(** X4.  For a valid input with [n] whole seconds elapsed,
    [formatRelativeTime] says "Just now" for every [n] below 60, a date in
    the future included; from there on it counts whole minutes (1 to 59),
    hours (1 to 23), days (1 to 29), 30-day months (1 to 12) or 365-day
    years (1 and up), the count never being 0. *)
Theorem X4_relative_time_buckets
    (parse : string -> option Z) (now : Z) (d : DateUtils.DateInput) (date : Z) :
  DateUtils.not_ d = false ->
  DateUtils.newDate parse d = Some date ->
  (Aux.elapsed now date < 60 ->
   DateUtils.formatRelativeTime parse now d = "Just now") /\
  (60 <= Aux.elapsed now date < 3600 ->
   DateUtils.formatRelativeTime parse now d
     = DateUtils.ago (Aux.elapsed now date / 60) "minute" /\
   1 <= Aux.elapsed now date / 60 <= 59) /\
  (3600 <= Aux.elapsed now date < 86400 ->
   DateUtils.formatRelativeTime parse now d
     = DateUtils.ago (Aux.elapsed now date / 3600) "hour" /\
   1 <= Aux.elapsed now date / 3600 <= 23) /\
  (86400 <= Aux.elapsed now date < 2592000 ->
   DateUtils.formatRelativeTime parse now d
     = DateUtils.ago (Aux.elapsed now date / 86400) "day" /\
   1 <= Aux.elapsed now date / 86400 <= 29) /\
  (2592000 <= Aux.elapsed now date < 31536000 ->
   DateUtils.formatRelativeTime parse now d
     = DateUtils.ago (Aux.elapsed now date / 2592000) "month" /\
   1 <= Aux.elapsed now date / 2592000 <= 12) /\
  (31536000 <= Aux.elapsed now date ->
   DateUtils.formatRelativeTime parse now d
     = DateUtils.ago (Aux.elapsed now date / 31536000) "year" /\
   1 <= Aux.elapsed now date / 31536000).
Proof.
  intros Hd Hp. unfold DateUtils.formatRelativeTime, Aux.elapsed.
  rewrite Hd, Hp. cbv zeta.
  set (n := (now - date) `div` 1000).
  repeat split; try (repeat case Z.ltb_spec; intros; solve [reflexivity | lia]);
    Z.div_mod_to_equations; lia.
Qed.

Lemma X4_witness :
  DateUtils.not_ (DateUtils.InDate (Some 0)) = false /\
  DateUtils.newDate Samples.parseOne (DateUtils.InDate (Some 0)) = Some 0 /\
  2592000 <= Aux.elapsed (31104000 * 1000) 0 < 31536000 /\
  DateUtils.formatRelativeTime Samples.parseOne (31104000 * 1000)
    (DateUtils.InDate (Some 0)) = "12 months ago" /\
  Aux.elapsed (-5000) 0 < 60 /\
  DateUtils.formatRelativeTime Samples.parseOne (-5000)
    (DateUtils.InDate (Some 0)) = "Just now".
Proof.
  split; [reflexivity |]. split; [reflexivity |].
  split; [vm_compute; split; [discriminate | reflexivity] |].
  split.
  - destruct (X4_relative_time_buckets Samples.parseOne (31104000 * 1000)
                (DateUtils.InDate (Some 0)) 0 eq_refl eq_refl)
      as (_ & _ & _ & _ & H & _).
    destruct H as [E _]; [vm_compute; split; [discriminate | reflexivity] |].
    rewrite E. reflexivity.
  - split; [reflexivity |].
    apply (proj1 (X4_relative_time_buckets Samples.parseOne (-5000)
                    (DateUtils.InDate (Some 0)) 0 eq_refl eq_refl)).
    reflexivity.
Defined.

(** ** UrlResolver *)

(** X5.  [getBaseUrl] never returns the empty string, whatever the
    environment holds: an empty override falls through to the production
    domain. *)
Theorem X5_getBaseUrl_never_empty (env : gmap string string) :
  UrlUtils.getBaseUrl env <> "".
Proof.
  unfold UrlUtils.getBaseUrl.
  destruct (bool_decide (env !! "NODE_ENV" = Some "development")); [discriminate |].
  destruct (env !! "REACT_APP_BASE_URL") as [url |]; [| discriminate].
  destruct (bool_decide (url = "")) eqn:E; [discriminate |].
  apply bool_decide_eq_false in E. exact E.
Qed.

(** ** ActivityDashboard: the passive fetches *)

(** X6.  Whatever the activities request comes to (a body, a null body, a
    rejection), the part of [fetchActivities] run after it returns
    normally with [loading] false, so the page shown next is not the
    spinner; it issues no request and leaves [stats], [filters],
    [logPurgeStatus] and [purging] as they were. *)
Theorem X6_fetch_always_clears_loading
    (response : Activities.ApiResult (option Activities.ActivitiesBody))
    (s : Activities.State) :
  exists (s' : Activities.State) (t : list Activities.Effect),
    Activities.fetchActivities_response response s = (inr tt, s', t) /\
    Activities.loading s' = false /\
    Activities.view s' <> Activities.Spinner /\
    Activities.requests t = [] /\
    Activities.stats s' = Activities.stats s /\
    Activities.filters s' = Activities.filters s /\
    Activities.logPurgeStatus s' = Activities.logPurgeStatus s /\
    Activities.purging s' = Activities.purging s.
Proof.
  destruct response as [[b |] | e]; eexists _, _;
    (split; [reflexivity |]); simpl; repeat split; discriminate.
Qed.

(** X7.  Starting a fetch sets [loading] and issues exactly one request,
    keeping the list and the pagination block.  The page then shows the
    spinner exactly when no activity is loaded yet; otherwise the rows on
    screen are still the previous list. *)
Theorem X7_refetch_keeps_content_visible (rendered s : Activities.State) :
  exists (s' : Activities.State) (t : list Activities.Effect),
    Activities.fetchActivities_request rendered s = (inr tt, s', t) /\
    Activities.loading s' = true /\
    Activities.activities s' = Activities.activities s /\
    Activities.pagination s' = Activities.pagination s /\
    Activities.request_path <$> Activities.requests t = ["/activities"] /\
    (Activities.view s' = Activities.Spinner <-> Activities.activities s = []) /\
    (Activities.activities s <> [] ->
     exists cards pager,
       Activities.view s' =
         Activities.Page cards (Activities.purgeButtons s')
           (Activities.activities s) pager).
Proof.
  eexists _, _. split; [reflexivity |]. simpl.
  do 4 (split; [reflexivity |]).
  unfold Activities.view. simpl.
  destruct (Activities.activities s) as [| a l]; simpl.
  - split; [split; reflexivity | intros H; contradiction].
  - split; [split; discriminate |]. intros _. eexists _, _. reflexivity.
Qed.

Lemma X7_witness :
  Activities.activities (Samples.loaded 2 4) <> [] /\
  exists (s' : Activities.State) (t : list Activities.Effect),
    Activities.fetchActivities_request (Samples.loaded 2 4) (Samples.loaded 2 4)
      = (inr tt, s', t) /\
    Activities.loading s' = true /\
    Activities.view s' <> Activities.Spinner.
Proof.
  split; [discriminate |].
  destruct (X7_refetch_keeps_content_visible (Samples.loaded 2 4) (Samples.loaded 2 4))
    as (s' & t & E & Hl & _ & _ & _ & Hv & _).
  exists s', t. split; [exact E |]. split; [exact Hl |].
  intros H. apply Hv in H. discriminate H.
Defined.

(** X8.  A stats response replaces [stats] and nothing else, with no
    further effect; a rejected stats request leaves the whole state as it
    was and logs the error once. *)
Theorem X8_fetchStats_outcomes
    (body : Activities.Stats) (error : Activities.Error) (s : Activities.State) :
  (exists s' : Activities.State,
     Activities.fetchStats_response (Activities.Resolved body) s = (inr tt, s', []) /\
     Activities.stats s' = body /\
     Activities.activities s' = Activities.activities s /\
     Activities.loading s' = Activities.loading s /\
     Activities.filters s' = Activities.filters s /\
     Activities.pagination s' = Activities.pagination s /\
     Activities.logPurgeStatus s' = Activities.logPurgeStatus s /\
     Activities.purging s' = Activities.purging s) /\
  Activities.fetchStats_response (Activities.Rejected error) s =
    (inr tt, s, [Activities.ConsoleError "Error fetching stats:" error]).
Proof.
  split; [| reflexivity].
  eexists. split; [reflexivity |]. simpl. repeat split.
Qed.

(** X9.  A purge-status response stores [response.data.data] (nothing,
    when the body has no [data]) and touches no other state; a null body
    or a rejected request leaves the whole state as it was, the previous
    status included, and logs one error. *)
Theorem X9_fetchLogPurgeStatus_outcomes
    (body : Activities.LogPurgeStatusBody) (error : Activities.Error)
    (s : Activities.State) :
  (exists s' : Activities.State,
     Activities.fetchLogPurgeStatus_response (Activities.Resolved (Some body)) s
       = (inr tt, s', []) /\
     Activities.logPurgeStatus s' = Activities.status_data body /\
     Activities.activities s' = Activities.activities s /\
     Activities.stats s' = Activities.stats s /\
     Activities.loading s' = Activities.loading s /\
     Activities.filters s' = Activities.filters s /\
     Activities.pagination s' = Activities.pagination s /\
     Activities.purging s' = Activities.purging s) /\
  (exists e : Activities.Error,
     Activities.fetchLogPurgeStatus_response (Activities.Resolved None) s =
       (inr tt, s, [Activities.ConsoleError "Error fetching log purge status:" e])) /\
  Activities.fetchLogPurgeStatus_response (Activities.Rejected error) s =
    (inr tt, s, [Activities.ConsoleError "Error fetching log purge status:" error]).
Proof.
  split; [| split; [eexists |]; reflexivity].
  eexists. split; [reflexivity |]. simpl. repeat split.
Qed.

(** ** ActivityDashboard: export and purge *)

(** X10.  [handleExport] never changes the state, whether the request
    succeeds or not.  It issues exactly one request, for the CSV of the
    rendered [days] filter; the download steps (object URL, anchor, click,
    removal of the anchor) run exactly when the request resolved, and the
    anchor is removed right after the click. *)
Theorem X10_export_never_changes_state
    (rendered s : Activities.State) (response : Activities.ApiResult string) :
  exists t : list Activities.Effect,
    Activities.handleExport rendered response s = (inr tt, s, t) /\
    Activities.requests t =
      [Activities.GetBlob "/activities/export/csv"
         {[ "days" := Activities.toString (Activities.filters rendered !! "days") ]}] /\
    (filter (fun e => Aux.is_download_step e = true) t <> [] <->
     exists blob, response = Activities.Resolved blob) /\
    ((exists blob, response = Activities.Resolved blob) ->
     exists t0, t = t0 ++ [Activities.Click; Activities.Remove]).
Proof.
  destruct response as [blob | error]; eexists; (split; [reflexivity |]).
  - split; [reflexivity |]. split.
    + split; [intros _; eauto | intros _; discriminate].
    + intros _. eexists [_; _; _; _; _; _]. reflexivity.
  - split; [reflexivity |]. split.
    + split; [intros H; exfalso; apply H; reflexivity |].
      intros (blob & H). discriminate H.
    + intros (blob & H). discriminate H.
Qed.

Lemma X10_witness :
  (exists blob, Activities.Resolved "id,action" = Activities.Resolved blob) /\
  exists t0,
    snd (Activities.handleExport (Samples.loaded 1 3)
           (Activities.Resolved "id,action") (Samples.loaded 1 3))
      = t0 ++ [Activities.Click; Activities.Remove].
Proof.
  split; [eexists; reflexivity |].
  destruct (X10_export_never_changes_state (Samples.loaded 1 3) (Samples.loaded 1 3)
              (Activities.Resolved "id,action")) as (t & E & _ & _ & H).
  destruct H as (t0 & ->); [eexists; reflexivity |].
  exists t0. rewrite E. reflexivity.
Defined.

(** X11.  The part of [handleLogPurge] run after the request shows exactly
    one alert on every outcome and never touches [activities], [stats],
    [filters], [pagination] or [logPurgeStatus] itself.  Unless the answer
    is a readable body with a truthy [success], it issues no request at
    all (no list, stats or status is fetched again) and leaves [loading]
    alone. *)
Theorem X11_failed_purge_refetches_nothing
    (rendered s : Activities.State)
    (response : Activities.ApiResult (option Activities.PurgeBody)) :
  exists (s' : Activities.State) (t : list Activities.Effect),
    Activities.handleLogPurge_response rendered response s = (inr tt, s', t) /\
    length (Aux.alerts t) = 1%nat /\
    Activities.activities s' = Activities.activities s /\
    Activities.stats s' = Activities.stats s /\
    Activities.filters s' = Activities.filters s /\
    Activities.pagination s' = Activities.pagination s /\
    Activities.logPurgeStatus s' = Activities.logPurgeStatus s /\
    (Aux.purge_succeeds response = false ->
     Activities.requests t = [] /\
     Activities.loading s' = Activities.loading s).
Proof.
  destruct response as [[[[] n msg] |] | e]; eexists _, _;
    (split; [reflexivity |]); simpl; repeat split; discriminate.
Qed.

Lemma X11_witness :
  Aux.purge_succeeds
    (Activities.Resolved
       (Some {| Activities.success := false; Activities.deletedCount := None;
                Activities.message := Some "forbidden" |})) = false /\
  exists (s' : Activities.State) (t : list Activities.Effect),
    Activities.handleLogPurge_response (Samples.loaded 1 3)
      (Activities.Resolved
         (Some {| Activities.success := false; Activities.deletedCount := None;
                  Activities.message := Some "forbidden" |}))
      Samples.whilePurging = (inr tt, s', t) /\
    Activities.requests t = [] /\
    Aux.alerts t = ["Failed to purge logs: forbidden"].
Proof.
  split; [reflexivity |].
  destruct (X11_failed_purge_refetches_nothing (Samples.loaded 1 3) Samples.whilePurging
              (Activities.Resolved
                 (Some {| Activities.success := false; Activities.deletedCount := None;
                          Activities.message := Some "forbidden" |})))
    as (s' & t & E & _ & _ & _ & _ & _ & _ & H).
  exists s', t. split; [exact E |]. split; [apply H; reflexivity |].
  vm_compute in E. injection E as _ <-. reflexivity.
Defined.

(** ** ActivityDashboard: moving between pages *)

Section Navigation.

Import Activities.

Lemma button_keys_are_pages (rendered : State) (k : Z) :
  k ∈ buttonKeys (renderedPageItems rendered) ->
  1 <= k <= pages (pagination rendered).
Proof.
  intros Hk.
  destruct (Z.le_gt_cases 2 (pages (pagination rendered))) as [HT | HT].
  - rewrite control_shown in Hk by exact HT.
    apply (proj1 (page_number_row rendered k)) in Hk. tauto.
  - destruct (control_hidden rendered) as [_ E]; [lia |].
    rewrite E in Hk. apply elem_of_nil in Hk. contradiction.
Qed.

End Navigation.

(** X12.  Once the page number lies in 1..pages it stays there under every
    handler of the page that sets it, and none of them changes [pages] or
    [total]: Previous, a change of the page size, a change of a filter and
    Clear Filters on every such state (a single page included); Next when
    the render it belongs to has the same number of pages; and a click on
    a page button of the row of such a render. *)
Theorem X12_page_stays_in_range
    (rendered s : Activities.State) (k limit : Z) (key : string)
    (value : Activities.FilterValue) :
  Aux.page_in_range s ->
  Aux.stays_in_range Activities.clickPrevious s /\
  Aux.stays_in_range (Activities.changeLimit limit) s /\
  Aux.stays_in_range (Activities.handleFilterChange key value) s /\
  Aux.stays_in_range Activities.clearFilters s /\
  (Activities.pages (Activities.pagination rendered)
     = Activities.pages (Activities.pagination s) ->
   Aux.stays_in_range (Activities.clickNext rendered) s) /\
  (Activities.pages (Activities.pagination rendered)
     = Activities.pages (Activities.pagination s) ->
   k ∈ Activities.buttonKeys (Activities.renderedPageItems rendered) ->
   Aux.stays_in_range (Activities.clickPage k) s).
Proof.
  unfold Aux.stays_in_range, Aux.page_in_range. intros Hs.
  split; [eexists; split; [reflexivity |]; simpl; lia |].
  split; [eexists; split; [reflexivity |]; simpl; lia |].
  split; [eexists; split; [reflexivity |]; simpl; lia |].
  split; [eexists; split; [reflexivity |]; simpl; lia |].
  split.
  - intros HT. eexists. split; [reflexivity |]. simpl. lia.
  - intros HT Hk. apply button_keys_are_pages in Hk.
    eexists. split; [reflexivity |]. simpl. lia.
Qed.

Lemma X12_witness :
  Aux.page_in_range Samples.whilePurging /\
  Aux.stays_in_range (Activities.handleFilterChange "days" (Activities.Str "7"))
    Samples.whilePurging /\
  Aux.stays_in_range Activities.clearFilters Samples.whilePurging /\
  Aux.page_in_range (Samples.loaded 4 4) /\
  4 ∈ Activities.buttonKeys (Activities.renderedPageItems (Samples.loaded 4 4)) /\
  Aux.stays_in_range (Activities.clickNext (Samples.loaded 4 4)) (Samples.loaded 4 4) /\
  Aux.stays_in_range (Activities.clickPage 4) (Samples.loaded 4 4).
Proof.
  assert (H1 : Aux.page_in_range Samples.whilePurging)
    by (unfold Aux.page_in_range; simpl; lia).
  assert (H4 : Aux.page_in_range (Samples.loaded 4 4))
    by (unfold Aux.page_in_range; simpl; lia).
  assert (Hk : 4 ∈ Activities.buttonKeys
                 (Activities.renderedPageItems (Samples.loaded 4 4)))
    by (apply (bool_decide_unpack _); vm_compute; exact I).
  destruct (X12_page_stays_in_range Samples.whilePurging Samples.whilePurging
              1 50 "days" (Activities.Str "7") H1) as (_ & _ & Hf & Hc & _).
  destruct (X12_page_stays_in_range (Samples.loaded 4 4) (Samples.loaded 4 4)
              4 50 "days" (Activities.Str "7") H4) as (_ & _ & _ & _ & Hn & Hp).
  split; [exact H1 |]. split; [exact Hf |]. split; [exact Hc |].
  split; [exact H4 |]. split; [exact Hk |].
  split; [exact (Hn eq_refl) | exact (Hp eq_refl Hk)].
Defined.

(** X13.  On the first page Previous leaves the pagination block as it is,
    and on the last page so does Next: the two clicks that the disabled
    buttons rule out would change nothing.  Away from these ends the page
    number moves by exactly one. *)
Theorem X13_previous_and_next
    (rendered s : Activities.State) :
  Activities.pages (Activities.pagination rendered)
    = Activities.pages (Activities.pagination s) ->
  (exists s' : Activities.State,
     Activities.clickPrevious s = (inr tt, s', []) /\
     (Activities.page (Activities.pagination s) <= 1 ->
      Activities.page (Activities.pagination s') = 1) /\
     (Activities.page (Activities.pagination s) = 1 ->
      Activities.pagination s' = Activities.pagination s) /\
     (1 < Activities.page (Activities.pagination s) ->
      Activities.page (Activities.pagination s')
        = Activities.page (Activities.pagination s) - 1)) /\
  (exists s' : Activities.State,
     Activities.clickNext rendered s = (inr tt, s', []) /\
     (Activities.page (Activities.pagination s)
        = Activities.pages (Activities.pagination s) ->
      Activities.pagination s' = Activities.pagination s) /\
     (Activities.page (Activities.pagination s)
        < Activities.pages (Activities.pagination s) ->
      Activities.page (Activities.pagination s')
        = Activities.page (Activities.pagination s) + 1)).
Proof.
  intros HT. destruct s as [a st l f [p li to ps] lps pu]. simpl in *.
  split; eexists; (split; [reflexivity |]); simpl.
  - split; [lia |]. split; [| lia].
    intros ->. reflexivity.
  - rewrite HT. split; [| lia].
    intros ->. unfold Activities.with_page. simpl. f_equal. lia.
Qed.

Lemma X13_witness :
  Activities.pages (Activities.pagination (Samples.loaded 1 3))
    = Activities.pages (Activities.pagination (Samples.loaded 1 3)) /\
  exists s' : Activities.State,
    Activities.clickPrevious (Samples.loaded 1 3) = (inr tt, s', []) /\
    Activities.pagination s' = Activities.pagination (Samples.loaded 1 3).
Proof.
  split; [reflexivity |].
  destruct (X13_previous_and_next (Samples.loaded 1 3) (Samples.loaded 1 3) eq_refl)
    as ((s' & E & _ & H & _) & _).
  exists s'. split; [exact E | apply H; reflexivity].
Defined.

(** ** ActivityDashboard: filters *)

(** X14.  Filter changes compose as assignments to a dictionary: changes
    of two different fields give the same state in either order, and of
    two changes of the same field the later one wins. *)
Theorem X14_filter_changes_compose
    (key1 key2 : string) (v1 v2 : Activities.FilterValue) (s : Activities.State) :
  (key1 <> key2 ->
   (Activities.handleFilterChange key1 v1;; Activities.handleFilterChange key2 v2) s =
   (Activities.handleFilterChange key2 v2;; Activities.handleFilterChange key1 v1) s) /\
  (Activities.handleFilterChange key1 v1;; Activities.handleFilterChange key1 v2) s =
    Activities.handleFilterChange key1 v2 s.
Proof.
  split.
  - intros Hne.
    unfold Activities.handleFilterChange, Activities.setFilters,
      Activities.setPagination, Activities.modify, mbind, Activities.Act_bind.
    simpl. rewrite (insert_insert_ne _ key2 key1) by congruence. reflexivity.
  - unfold Activities.handleFilterChange, Activities.setFilters,
      Activities.setPagination, Activities.modify, mbind, Activities.Act_bind.
    simpl. rewrite insert_insert_eq. reflexivity.
Qed.

Lemma X14_witness :
  "days" <> "action" /\
  (Activities.handleFilterChange "days" (Activities.Str "7");;
   Activities.handleFilterChange "action" (Activities.Str "login")) Activities.initialState =
  (Activities.handleFilterChange "action" (Activities.Str "login");;
   Activities.handleFilterChange "days" (Activities.Str "7")) Activities.initialState.
Proof.
  split; [discriminate |].
  apply (proj1 (X14_filter_changes_compose "days" "action" (Activities.Str "7")
                  (Activities.Str "login") Activities.initialState)).
  discriminate.
Defined.

Section FilterQuery.

Import Activities.

(** The parameters of the activities request of a render. *)
Lemma activities_request (rendered s : State) :
  exists s' : State,
    fetchActivities_request rendered s =
      (inr tt, s',
       [Api (Get "/activities"
               (((fun v => toString (Some v)) <$> filters rendered) ∪
                {[ "page" := JS.String_ (page (pagination rendered));
                   "limit" := JS.String_ (limit (pagination rendered)) ]}))]).
Proof. eexists. reflexivity. Qed.

Lemma activities_params (f : gmap string FilterValue) (pg li : string) (k : string) :
  (((fun v => toString (Some v)) <$> f) ∪ {[ "page" := pg; "limit" := li ]}) !! k =
    match f !! k with
    | Some v => Some (toString (Some v))
    | None => if decide (k = "page") then Some pg
              else if decide (k = "limit") then Some li else None
    end.
Proof.
  destruct (f !! k) as [v |] eqn:E.
  - apply lookup_union_Some_l. rewrite lookup_fmap, E. reflexivity.
  - rewrite lookup_union_r by (rewrite lookup_fmap, E; reflexivity).
    destruct (decide (k = "page")) as [-> | Hp]; [apply lookup_insert_eq |].
    rewrite lookup_insert_ne by congruence.
    destruct (decide (k = "limit")) as [-> | Hl]; [apply lookup_singleton_eq |].
    apply lookup_singleton_ne. congruence.
Qed.

End FilterQuery.

(** X15.  A changed filter reaches the server: after
    [handleFilterChange key value] (for a key other than "page" and
    "limit", on filters that hold neither), the activities request of the
    next render carries [key] with the new value as a string, page 1, the
    page size as it was, and every other filter as it was.  A changed
    [days] is also what the stats request and the export request of that
    render carry. *)
Theorem X15_filter_reaches_the_query
    (key : string) (value : Activities.FilterValue) (s s0 : Activities.State) :
  key <> "page" ->
  key <> "limit" ->
  Activities.filters s !! "page" = None ->
  Activities.filters s !! "limit" = None ->
  exists (s' s1 : Activities.State) (params : gmap string string),
    Activities.handleFilterChange key value s = (inr tt, s', []) /\
    Activities.fetchActivities_request s' s0 =
      (inr tt, s1, [Activities.Api (Activities.Get "/activities" params)]) /\
    params !! key = Some (Activities.toString (Some value)) /\
    params !! "page" = Some "1" /\
    params !! "limit"
      = Some (JS.String_ (Activities.limit (Activities.pagination s))) /\
    (forall k v, k <> key -> Activities.filters s !! k = Some v ->
                 params !! k = Some (Activities.toString (Some v))) /\
    (key = "days" ->
     Activities.fetchStats_request s' s0 =
       (inr tt, s0,
        [Activities.Api (Activities.Get "/activities/stats"
           {[ "days" := Activities.toString (Some value) ]})]) /\
     Activities.handleExport_request s' s0 =
       (inr tt, s0,
        [Activities.Api (Activities.GetBlob "/activities/export/csv"
           {[ "days" := Activities.toString (Some value) ]})])).
Proof.
  intros Hp Hl Fp Fl.
  eexists _, _, _. split; [reflexivity |]. split; [reflexivity |]. simpl.
  split; [| split; [| split; [| split]]].
  - rewrite activities_params, lookup_insert_eq. reflexivity.
  - rewrite activities_params, lookup_insert_ne, Fp by congruence. reflexivity.
  - rewrite activities_params, lookup_insert_ne, Fl by congruence. reflexivity.
  - intros k v Hk Hv.
    rewrite activities_params, lookup_insert_ne, Hv by congruence. reflexivity.
  - intros ->.
    unfold Activities.fetchStats_request, Activities.handleExport_request.
    simpl. rewrite lookup_insert_eq. split; reflexivity.
Qed.

Lemma X15_witness :
  "days" <> "page" /\ "days" <> "limit" /\
  Activities.filters (Samples.loaded 3 7) !! "page" = None /\
  Activities.filters (Samples.loaded 3 7) !! "limit" = None /\
  exists (s' s1 : Activities.State) (params : gmap string string),
    Activities.handleFilterChange "days" (Activities.Str "7") (Samples.loaded 3 7)
      = (inr tt, s', []) /\
    Activities.fetchActivities_request s' s' =
      (inr tt, s1, [Activities.Api (Activities.Get "/activities" params)]) /\
    params !! "days" = Some "7" /\
    params !! "page" = Some "1".
Proof.
  split; [discriminate |]. split; [discriminate |].
  split; [reflexivity |]. split; [reflexivity |].
  destruct (X15_filter_reaches_the_query "days" (Activities.Str "7")
              (Samples.loaded 3 7)
              (snd (fst (Activities.handleFilterChange "days" (Activities.Str "7")
                           (Samples.loaded 3 7)))))
    as (s' & s1 & params & E1 & E2 & Hd & Hpg & _);
    [discriminate | discriminate | reflexivity | reflexivity |].
  exists s', s1, params.
  assert (Es : s' = snd (fst (Activities.handleFilterChange "days"
                                (Activities.Str "7") (Samples.loaded 3 7))))
    by (rewrite E1; reflexivity).
  rewrite <- Es in E2. auto.
Defined.

(** X16.  The filters start with exactly the keys entityType, action,
    userId and days, and keep exactly these under a change of any of the
    four and under Clear Filters.  A render with these filter keys asks for
    the activities with exactly six parameters: the four filters, and
    [page] and [limit] taken from its pagination block. *)
Theorem X16_filter_keys
    (key : string) (value : Activities.FilterValue)
    (rendered s s0 : Activities.State) :
  dom (Activities.filters Activities.initialState) = Aux.filterKeys /\
  (exists s' : Activities.State,
     Activities.clearFilters s = (inr tt, s', []) /\
     dom (Activities.filters s') = Aux.filterKeys) /\
  (dom (Activities.filters s) = Aux.filterKeys ->
   key ∈ Aux.filterKeys ->
   exists s' : Activities.State,
     Activities.handleFilterChange key value s = (inr tt, s', []) /\
     dom (Activities.filters s') = Aux.filterKeys) /\
  (dom (Activities.filters rendered) = Aux.filterKeys ->
   exists (s1 : Activities.State) (params : gmap string string),
     Activities.fetchActivities_request rendered s0 =
       (inr tt, s1, [Activities.Api (Activities.Get "/activities" params)]) /\
     dom params = Aux.filterKeys ∪ {[ "page"; "limit" ]} /\
     params !! "page"
       = Some (JS.String_ (Activities.page (Activities.pagination rendered))) /\
     params !! "limit"
       = Some (JS.String_ (Activities.limit (Activities.pagination rendered)))).
Proof.
  assert (Hinit : dom Activities.initialFilters = Aux.filterKeys).
  { unfold Activities.initialFilters, Aux.filterKeys.
    rewrite !dom_insert_L, dom_singleton_L.
    rewrite <- !(assoc_L (∪)). reflexivity. }
  split; [exact Hinit |].
  split; [eexists; split; [reflexivity | exact Hinit] |].
  split.
  - intros Hd Hk. eexists. split; [reflexivity |]. simpl.
    rewrite dom_insert_L, Hd. apply subseteq_union_1_L.
    apply singleton_subseteq_l. exact Hk.
  - intros Hd. eexists _, _. split; [reflexivity |].
    assert (Hnot : forall k, k ∈ ({[ "page"; "limit" ]} : gset string) ->
                             Activities.filters rendered !! k = None).
    { intros k Hk. apply not_elem_of_dom. rewrite Hd. unfold Aux.filterKeys.
      apply elem_of_union in Hk as [Hk | Hk]; apply elem_of_singleton in Hk;
        subst k; apply (bool_decide_unpack _); vm_compute; exact I. }
    split; [| split].
    + rewrite dom_union_L, dom_fmap_L, Hd, dom_insert_L, dom_singleton_L.
      reflexivity.
    + rewrite activities_params, Hnot; [reflexivity |].
      apply elem_of_union_l, elem_of_singleton. reflexivity.
    + rewrite activities_params, Hnot; [reflexivity |].
      apply elem_of_union_r, elem_of_singleton. reflexivity.
Qed.

Lemma X16_witness :
  dom (Activities.filters (Samples.loaded 2 4)) = Aux.filterKeys /\
  "days" ∈ Aux.filterKeys /\
  exists s' : Activities.State,
    Activities.handleFilterChange "days" (Activities.Str "90") (Samples.loaded 2 4)
      = (inr tt, s', []) /\
    dom (Activities.filters s') = Aux.filterKeys.
Proof.
  destruct (X16_filter_keys "days" (Activities.Str "90") (Samples.loaded 2 4)
              (Samples.loaded 2 4) (Samples.loaded 2 4)) as (Hi & _ & H & _).
  assert (Hk : "days" ∈ Aux.filterKeys)
    by (apply (bool_decide_unpack _); vm_compute; exact I).
  split; [exact Hi |]. split; [exact Hk |].
  apply H; [exact Hi | exact Hk].
Defined.

(** ** ActivityDashboard: the page-number row as a whole *)

Section PageRow.

Import Activities.

Variable rendered : State.

Lemma rendered_item_key (k : Z) (x : PageItem) :
  renderPageNumber rendered k = Some x ->
  Aux.item_key x = k /\
  x ∈ [ PageButton k (k =? page (pagination rendered)); Ellipsis k ] /\
  k ∈ [ 1; pages (pagination rendered);
        page (pagination rendered) - 3; page (pagination rendered) - 2;
        page (pagination rendered) - 1; page (pagination rendered);
        page (pagination rendered) + 1; page (pagination rendered) + 2;
        page (pagination rendered) + 3 ].
Proof.
  intros Hx.
  assert (Hk : forall P : Prop,
            P \/ k = page (pagination rendered) - 3 \/
                 k = page (pagination rendered) + 3 ->
            (P -> in_window rendered k) ->
            k ∈ [ 1; pages (pagination rendered);
                  page (pagination rendered) - 3; page (pagination rendered) - 2;
                  page (pagination rendered) - 1; page (pagination rendered);
                  page (pagination rendered) + 1; page (pagination rendered) + 2;
                  page (pagination rendered) + 3 ]).
  { intros P HP Hw.
    assert (H : k = 1 \/ k = pages (pagination rendered) \/
                k = page (pagination rendered) - 3 \/
                k = page (pagination rendered) - 2 \/
                k = page (pagination rendered) - 1 \/
                k = page (pagination rendered) \/
                k = page (pagination rendered) + 1 \/
                k = page (pagination rendered) + 2 \/
                k = page (pagination rendered) + 3)
      by (destruct HP as [HP | HP]; [apply Hw in HP; unfold in_window in HP |]; lia).
    repeat destruct H as [H | H]; subst k;
      repeat (apply elem_of_cons; first [left; reflexivity | right]). }
  destruct (renderPageNumber_cases rendered k)
    as [(Hw & E) | [(_ & He & E) | (_ & _ & _ & E)]];
    rewrite E in Hx; [| | discriminate]; injection Hx as <-; simpl.
  - split; [reflexivity |]. split; [apply elem_of_cons; left; reflexivity |].
    apply (Hk (in_window rendered k)); [left; exact Hw | auto].
  - split; [reflexivity |].
    split; [apply elem_of_cons; right; apply elem_of_cons; left; reflexivity |].
    apply (Hk False); [right; exact He | contradiction].
Qed.

Lemma row_keys_sublist (l : list Z) :
  Aux.item_key <$> omap (renderPageNumber rendered) l `sublist_of` l.
Proof.
  induction l as [| k l IH]; simpl; [constructor |].
  destruct (renderPageNumber rendered k) as [x |] eqn:E; simpl.
  - destruct (rendered_item_key k x E) as [-> _]. apply sublist_skip, IH.
  - apply sublist_cons, IH.
Qed.

Lemma seq_strongly_sorted (j n : nat) : StronglySorted lt (seq j n).
Proof.
  revert j. induction n as [| n IH]; intros j; simpl; constructor.
  - apply IH.
  - apply Forall_forall. intros x Hx. apply elem_of_seq in Hx. lia.
Qed.

Lemma pageNumbers_strongly_sorted : StronglySorted Z.lt (pageNumbers rendered).
Proof.
  unfold pageNumbers. apply (StronglySorted_fmap _ lt); [| apply seq_strongly_sorted].
  intros x y Hxy. lia.
Qed.

Lemma sublist_strongly_sorted (l1 l2 : list Z) :
  l1 `sublist_of` l2 -> StronglySorted Z.lt l2 -> StronglySorted Z.lt l1.
Proof.
  induction 1 as [| x l1 l2 Hsub IH | x l1 l2 Hsub IH]; intros Hs.
  - constructor.
  - apply StronglySorted_inv in Hs as [Hs Hall]. constructor; [apply IH, Hs |].
    apply Forall_forall. intros y Hy. rewrite Forall_forall in Hall.
    apply Hall. apply (elem_of_sublist _ _ _ Hy Hsub).
  - apply StronglySorted_inv in Hs as [Hs _]. apply IH, Hs.
Qed.

Lemma strongly_sorted_NoDup (l : list Z) : StronglySorted Z.lt l -> NoDup l.
Proof.
  induction 1 as [| x l Hs IH Hall]; constructor; [| exact IH].
  intros Hx. rewrite Forall_forall in Hall. specialize (Hall x Hx). lia.
Qed.

Lemma rendered_row_cases :
  renderedPageItems rendered = [] \/
  renderedPageItems rendered = omap (renderPageNumber rendered) (pageNumbers rendered).
Proof.
  destruct (Z.le_gt_cases 2 (pages (pagination rendered))) as [HT | HT].
  - right. apply control_shown. exact HT.
  - left. apply control_hidden. lia.
Qed.

Lemma row_keys_sorted :
  StronglySorted Z.lt (Aux.item_key <$> renderedPageItems rendered).
Proof.
  destruct rendered_row_cases as [-> | ->]; [constructor |].
  apply (sublist_strongly_sorted _ (pageNumbers rendered));
    [apply row_keys_sublist | apply pageNumbers_strongly_sorted].
Qed.

End PageRow.

(** X17.  The entries of the page-number row stand in strictly increasing
    page order: no page number has two entries, and an ellipsis stands
    between the buttons around it. *)
Theorem X17_page_row_in_page_order (rendered : Activities.State) :
  StronglySorted Z.lt (Aux.item_key <$> Activities.renderedPageItems rendered).
Proof. apply row_keys_sorted. Qed.

(** X18.  However many pages there are, the row has at most nine entries:
    the first and the last page, the five pages around the current one,
    and an ellipsis on either side. *)
Theorem X18_page_row_at_most_nine (rendered : Activities.State) :
  (length (Activities.renderedPageItems rendered) <= 9)%nat.
Proof.
  rewrite <- (length_fmap Aux.item_key).
  pose proof (strongly_sorted_NoDup _ (row_keys_sorted rendered)) as Hnd.
  apply (NoDup_submseteq _
           [ 1; Activities.pages (Activities.pagination rendered);
             Activities.page (Activities.pagination rendered) - 3;
             Activities.page (Activities.pagination rendered) - 2;
             Activities.page (Activities.pagination rendered) - 1;
             Activities.page (Activities.pagination rendered);
             Activities.page (Activities.pagination rendered) + 1;
             Activities.page (Activities.pagination rendered) + 2;
             Activities.page (Activities.pagination rendered) + 3 ]) in Hnd.
  - apply submseteq_length in Hnd. exact Hnd.
  - intros k Hk. apply list_elem_of_fmap in Hk as (x & -> & Hx).
    destruct (rendered_row_cases rendered) as [E | E]; rewrite E in Hx.
    + apply elem_of_nil in Hx. contradiction.
    + apply list_elem_of_omap in Hx as (k & _ & Hr).
      destruct (rendered_item_key rendered k x Hr) as (-> & _ & Hin). exact Hin.
Qed.

(** X19.  When the control is shown and the current page lies in 1..T,
    the row has a button for the current page marked as current, and no
    button for any other page is marked so. *)
Theorem X19_one_current_button (rendered : Activities.State) :
  2 <= Activities.pages (Activities.pagination rendered) ->
  1 <= Activities.page (Activities.pagination rendered)
    <= Activities.pages (Activities.pagination rendered) ->
  Activities.PageButton (Activities.page (Activities.pagination rendered)) true
    ∈ Activities.renderedPageItems rendered /\
  (forall k, Activities.PageButton k true ∈ Activities.renderedPageItems rendered ->
             k = Activities.page (Activities.pagination rendered)).
Proof.
  intros HT Hp. rewrite control_shown by exact HT.
  split.
  - destruct (page_number_row rendered
                (Activities.page (Activities.pagination rendered)))
      as (Hb & _ & Hc).
    assert (Hin : Activities.page (Activities.pagination rendered)
                  ∈ Activities.buttonKeys
                      (omap (Activities.renderPageNumber rendered)
                            (Activities.pageNumbers rendered)))
      by (apply Hb; unfold Activities.in_window; lia).
    apply elem_of_buttonKeys in Hin as (c & Hin).
    rewrite (Hc c Hin) in Hin. rewrite Z.eqb_refl in Hin. exact Hin.
  - intros k Hk.
    destruct (page_number_row rendered k) as (_ & _ & Hc).
    specialize (Hc true Hk). symmetry in Hc. apply Z.eqb_eq in Hc. exact Hc.
Qed.

Lemma X19_witness :
  2 <= Activities.pages (Activities.pagination (Samples.loaded 5 10)) /\
  1 <= Activities.page (Activities.pagination (Samples.loaded 5 10))
    <= Activities.pages (Activities.pagination (Samples.loaded 5 10)) /\
  Activities.PageButton 5 true ∈ Activities.renderedPageItems (Samples.loaded 5 10).
Proof.
  assert (H1 : 2 <= Activities.pages (Activities.pagination (Samples.loaded 5 10)))
    by (simpl; lia).
  assert (H2 : 1 <= Activities.page (Activities.pagination (Samples.loaded 5 10))
               <= Activities.pages (Activities.pagination (Samples.loaded 5 10)))
    by (simpl; lia).
  split; [exact H1 |]. split; [exact H2 |].
  apply (proj1 (X19_one_current_button (Samples.loaded 5 10) H1 H2)).
Defined.

(** ** ActivityDashboard: stat cards, icons and colours *)

Section EntityTypes.

Import Activities.

Lemma pushed_types (l : list ActivityStat) (acc : list string) :
  NoDup acc ->
  NoDup (foldl pushEntityType acc l) /\
  (forall x, x ∈ foldl pushEntityType acc l <->
             x ∈ acc \/ x ∈ stat_entityType <$> l).
Proof.
  revert acc. induction l as [| stat l IH]; intros acc Hacc; simpl.
  - split; [exact Hacc |]. intros x. split; [auto |].
    intros [H | H]; [exact H |]. apply elem_of_nil in H. contradiction.
  - assert (Hpush : NoDup (pushEntityType acc stat) /\
                    forall x, x ∈ pushEntityType acc stat <->
                              x ∈ acc \/ x = stat_entityType stat).
    { unfold pushEntityType. case_bool_decide as Hin.
      - split; [exact Hacc |]. intros x. split; [auto |].
        intros [H | ->]; [exact H | exact Hin].
      - split.
        + apply NoDup_app. split; [exact Hacc |]. split; [| apply NoDup_singleton].
          intros x Hx Hx'. apply list_elem_of_singleton in Hx'. subst x. auto.
        + intros x. rewrite elem_of_app, list_elem_of_singleton. reflexivity. }
    destruct Hpush as [Hnd Hmem].
    destruct (IH _ Hnd) as [Hnd' Hmem'].
    split; [exact Hnd' |].
    intros x. rewrite Hmem', Hmem, elem_of_cons. tauto.
Qed.

End EntityTypes.

(** X20.  The "Entity Types" card shows the number of distinct entity
    types among the activity stats, however often each occurs, and 0 when
    the stats carry no [activityStats]. *)
Theorem X20_entityTypes_counts_distinct
    (rendered : Activities.State) (l : list Activities.ActivityStat) :
  (Activities.activityStats (Activities.stats rendered) = None ->
   Activities.entityTypes rendered = 0) /\
  (Activities.activityStats (Activities.stats rendered) = Some l ->
   Activities.entityTypes rendered =
     Z.of_nat (size (list_to_set (Activities.stat_entityType <$> l) : gset string))).
Proof.
  unfold Activities.entityTypes. split; intros ->; [reflexivity |]. simpl.
  destruct (pushed_types l [] (NoDup_nil_2)) as [Hnd Hmem].
  rewrite <- (size_list_to_set (C := gset string) _ Hnd).
  do 2 f_equal. apply set_eq. intros x.
  rewrite !elem_of_list_to_set, Hmem. split; [| auto].
  intros [H | H]; [apply elem_of_nil in H; contradiction | exact H].
Qed.

Lemma X20_witness :
  Activities.activityStats
    {| Activities.dailyStats := None; Activities.topUsers := None;
       Activities.activityStats :=
         Some [ {| Activities.stat_entityType := "user"; Activities.stat_count := 3 |};
                {| Activities.stat_entityType := "product"; Activities.stat_count := 1 |};
                {| Activities.stat_entityType := "user"; Activities.stat_count := 2 |} ] |}
    = Some [ {| Activities.stat_entityType := "user"; Activities.stat_count := 3 |};
             {| Activities.stat_entityType := "product"; Activities.stat_count := 1 |};
             {| Activities.stat_entityType := "user"; Activities.stat_count := 2 |} ] /\
  Activities.entityTypes
    {| Activities.activities := [];
       Activities.stats :=
         {| Activities.dailyStats := None; Activities.topUsers := None;
            Activities.activityStats :=
              Some [ {| Activities.stat_entityType := "user"; Activities.stat_count := 3 |};
                     {| Activities.stat_entityType := "product"; Activities.stat_count := 1 |};
                     {| Activities.stat_entityType := "user"; Activities.stat_count := 2 |} ] |};
       Activities.loading := false;
       Activities.filters := Activities.initialFilters;
       Activities.pagination := Activities.defaultPagination;
       Activities.logPurgeStatus := None;
       Activities.purging := false |} = 2.
Proof.
  split; [reflexivity |].
  match goal with
  | |- Activities.entityTypes ?st = _ =>
      rewrite (proj2 (X20_entityTypes_counts_distinct st
                 [ {| Activities.stat_entityType := "user"; Activities.stat_count := 3 |};
                   {| Activities.stat_entityType := "product"; Activities.stat_count := 1 |};
                   {| Activities.stat_entityType := "user"; Activities.stat_count := 2 |} ])
                eq_refl)
  end.
  vm_compute. reflexivity.
Defined.

(** X21.  Each entity type the icon switch knows (product, user, story,
    brand, category) gets an icon-and-colour pair that no other string
    gets, and each action the colour switch knows (create, update, delete,
    login) gets a badge colour that no other string gets: unknown values
    share the grey default, which none of the known ones uses. *)
Theorem X21_known_values_are_told_apart (a b : string) :
  (a ∈ Aux.knownEntityTypes ->
   Activities.getActionIcon a = Activities.getActionIcon b -> a = b) /\
  (a ∈ Aux.knownActions ->
   Activities.getActionColor a = Activities.getActionColor b -> a = b) /\
  (b ∉ Aux.knownEntityTypes ->
   Activities.getActionIcon b = (Activities.DocumentTextIcon, "w-5 h-5 text-gray-500")) /\
  (b ∉ Aux.knownActions ->
   Activities.getActionColor b = "text-gray-600 bg-gray-100").
Proof.
  split; [| split; [| split]].
  - intros Ha. unfold Aux.knownEntityTypes in Ha.
    repeat (apply elem_of_cons in Ha as [-> | Ha]);
      [ .. | apply elem_of_nil in Ha; contradiction ];
      match goal with
      | |- Activities.getActionIcon ?x = _ -> _ =>
          let v := eval vm_compute in (Activities.getActionIcon x) in
          change (Activities.getActionIcon x) with v
      end;
      unfold Activities.getActionIcon; repeat case_bool_decide;
      intros Hsame; solve [congruence | discriminate Hsame].
  - intros Ha. unfold Aux.knownActions in Ha.
    repeat (apply elem_of_cons in Ha as [-> | Ha]);
      [ .. | apply elem_of_nil in Ha; contradiction ];
      match goal with
      | |- Activities.getActionColor ?x = _ -> _ =>
          let v := eval vm_compute in (Activities.getActionColor x) in
          change (Activities.getActionColor x) with v
      end;
      unfold Activities.getActionColor; repeat case_bool_decide;
      intros Hsame; solve [congruence | discriminate Hsame].
  - intros Hb. unfold Aux.knownEntityTypes in Hb.
    unfold Activities.getActionIcon.
    repeat case_bool_decide; try reflexivity; subst b; exfalso; apply Hb;
      repeat (apply elem_of_cons; first [left; reflexivity | right]).
  - intros Hb. unfold Aux.knownActions in Hb.
    unfold Activities.getActionColor.
    repeat case_bool_decide; try reflexivity; subst b; exfalso; apply Hb;
      repeat (apply elem_of_cons; first [left; reflexivity | right]).
Qed.

Lemma X21_witness :
  "brand" ∈ Aux.knownEntityTypes /\
  Activities.getActionIcon "brand" <> Activities.getActionIcon "category".
Proof.
  assert (H : "brand" ∈ Aux.knownEntityTypes)
    by (apply (bool_decide_unpack _); vm_compute; exact I).
  split; [exact H |].
  intros E.
  pose proof (proj1 (X21_known_values_are_told_apart "brand" "category") H E) as Heq.
  discriminate Heq.
Defined.

(** ** ActivityDashboard: flows *)

(** X22.  A confirmed purge that succeeds leaves [purging] false and
    [loading] true (the list is being fetched again); once that fetch is
    answered, in whatever way, both flags are false: the page is not the
    spinner and neither purge button is disabled. *)
Theorem X22_page_usable_after_purge
    (rendered s : Activities.State) (daysOld : Z) (body : Activities.PurgeBody)
    (answer : Activities.ApiResult (option Activities.ActivitiesBody)) :
  Activities.success body = true ->
  exists (s1 s2 : Activities.State) (t1 t2 : list Activities.Effect),
    Activities.handleLogPurge rendered daysOld true
      (Activities.Resolved (Some body)) s = (inr tt, s1, t1) /\
    Activities.loading s1 = true /\
    Activities.purging s1 = false /\
    Activities.fetchActivities_response answer s1 = (inr tt, s2, t2) /\
    Activities.loading s2 = false /\
    Activities.purging s2 = false /\
    Activities.view s2 <> Activities.Spinner /\
    (forall b, b ∈ Activities.purgeButtons s2 -> Activities.disabled b = false).
Proof.
  intros Hs.
  destruct (purge_succeeded rendered body
              (snd (fst (Activities.setPurging (Activities.to true) s))) Hs)
    as (s1 & E1 & Hp1 & Hl1).
  pose proof (purge_confirmed rendered daysOld _ s _ _ E1) as E1'.
  assert (H2 : exists (s2 : Activities.State) (t2 : list Activities.Effect),
            Activities.fetchActivities_response answer s1 = (inr tt, s2, t2) /\
            Activities.loading s2 = false /\
            Activities.purging s2 = Activities.purging s1).
  { destruct answer as [[b |] | e]; eexists _, _;
      (split; [reflexivity |]); split; reflexivity. }
  destruct H2 as (s2 & t2 & E2 & Hl2 & Hp2).
  exists s1, s2. eexists _, t2. split; [exact E1' |].
  split; [exact Hl1 |]. split; [exact Hp1 |]. split; [exact E2 |].
  split; [exact Hl2 |]. rewrite Hp1 in Hp2. split; [exact Hp2 |].
  split.
  - unfold Activities.view. rewrite Hl2. discriminate.
  - intros b Hb. unfold Activities.purgeButtons in Hb.
    apply elem_of_cons in Hb as [-> | Hb]; [exact Hp2 |].
    apply elem_of_cons in Hb as [-> | Hb]; [exact Hp2 |].
    apply elem_of_nil in Hb. contradiction.
Qed.

Lemma X22_witness :
  Activities.success Samples.purged = true /\
  exists (s1 s2 : Activities.State) (t1 t2 : list Activities.Effect),
    Activities.handleLogPurge (Samples.loaded 2 4) 90 true
      (Activities.Resolved (Some Samples.purged)) (Samples.loaded 2 4)
      = (inr tt, s1, t1) /\
    Activities.fetchActivities_response (Activities.Resolved None) s1
      = (inr tt, s2, t2) /\
    Activities.loading s2 = false /\
    Activities.purging s2 = false.
Proof.
  split; [reflexivity |].
  destruct (X22_page_usable_after_purge (Samples.loaded 2 4) (Samples.loaded 2 4)
              90 Samples.purged (Activities.Resolved None) eq_refl)
    as (s1 & s2 & t1 & t2 & E1 & _ & _ & E2 & Hl & Hp & _).
  exists s1, s2, t1, t2. auto.
Defined.

(** X23.  The effect run on mount and on every change of the filters or
    of the page number issues exactly three requests, one to each of
    /activities, /activities/stats and /log-purge/status, in this order;
    the stats request carries the rendered [days].  Of the state it sets
    [loading] only. *)
Theorem X23_effect_issues_three_requests (rendered s : Activities.State) :
  exists (s' : Activities.State) (t : list Activities.Effect),
    Activities.useEffect_fetch rendered s = (inr tt, s', t) /\
    Activities.request_path <$> Activities.requests t =
      ["/activities"; "/activities/stats"; "/log-purge/status"] /\
    Activities.Api (Activities.Get "/activities/stats"
      {[ "days" := Activities.toString (Activities.filters rendered !! "days") ]}) ∈ t /\
    Activities.loading s' = true /\
    Activities.activities s' = Activities.activities s /\
    Activities.stats s' = Activities.stats s /\
    Activities.filters s' = Activities.filters s /\
    Activities.pagination s' = Activities.pagination s /\
    Activities.logPurgeStatus s' = Activities.logPurgeStatus s /\
    Activities.purging s' = Activities.purging s.
Proof.
  eexists _, _. split; [reflexivity |]. simpl.
  split; [reflexivity |].
  split; [apply elem_of_cons; right; apply elem_of_cons; left; reflexivity |].
  repeat split.
Qed.

(** X24.  Whenever the pagination control is shown, Previous and Next are
    not both disabled, and Previous is disabled exactly on page 1, Next
    exactly on the last page. *)
Theorem X24_arrows (rendered : Activities.State)
    (control : Activities.PaginationView) :
  Activities.paginationControl rendered = Some control ->
  (Activities.previousDisabled control = true <->
   Activities.page (Activities.pagination rendered) = 1) /\
  (Activities.nextDisabled control = true <->
   Activities.page (Activities.pagination rendered)
     = Activities.pages (Activities.pagination rendered)) /\
  ~ (Activities.previousDisabled control = true /\
     Activities.nextDisabled control = true).
Proof.
  unfold Activities.paginationControl.
  destruct (Z.gtb_spec (Activities.pages (Activities.pagination rendered)) 1)
    as [HT | HT]; [| discriminate].
  intros H. injection H as <-. simpl.
  rewrite !Z.eqb_eq. split; [reflexivity |]. split; [reflexivity |]. lia.
Qed.

Lemma X24_witness :
  exists control : Activities.PaginationView,
    Activities.paginationControl (Samples.loaded 1 3) = Some control /\
    Activities.previousDisabled control = true /\
    Activities.nextDisabled control = false.
Proof.
  eexists. split; [reflexivity |].
  assert (E : Activities.paginationControl (Samples.loaded 1 3)
              = Some {| Activities.limitSelect := 50;
                        Activities.previousDisabled := true;
                        Activities.pageItems :=
                          [ Activities.PageButton 1 true;
                            Activities.PageButton 2 false;
                            Activities.PageButton 3 false ];
                        Activities.nextDisabled := false |}) by reflexivity.
  destruct (X24_arrows (Samples.loaded 1 3) _ E) as (Hp & _ & _).
  split; [apply Hp; reflexivity | reflexivity].
Defined.
